(** * quyca: the affiliation service

    A shallow embedding of [quyca/services/affiliation.py] (the methods
    [update_affiliation_search], [search] and [get_affiliations] of
    [AffiliationService]) and of the [institutions] vocabulary of
    [quyca/core/config.py].

    Python exceptions are modelled by the [result] type, the repositories
    registered on the service by records of functions, a local [dict] by a
    [gmap], and the pydantic objects that the service mutates in place by
    locations of a heap. *)

From Stdlib Require Import ZArith Lia Ascii String.
From stdpp Require Import base option gmap strings list fin_maps.

Local Open Scope string_scope.
Local Open Scope Z_scope.

(** ** Exceptions *)

Inductive error : Set :=
  | IndexError              (* [obj.types[0]] on an empty list *)
  | NotFound                (* a repository finds no document for an id *)
  | CollaboratorUnavailable (* a repository call errors or times out *)
  | ValidationError         (* pydantic rejects a document *)
  | Unallocated.            (* not a Python exception: a location outside
                               the heap, which no Python reference denotes *)

Inductive result (A : Type) : Type :=
  | Ok (a : A)
  | Err (e : error).
Arguments Ok {A} a.
Arguments Err {A} e.

#[global] Instance result_ret : MRet result := λ A a, Ok a.
#[global] Instance result_bind : MBind result :=
  λ A B f r, match r with Ok a => f a | Err e => Err e end.

Definition is_ok {A} (r : result A) : bool :=
  match r with Ok _ => true | Err _ => false end.

(** ** [core/config.py] *)

Module Config.

(** [Settings.institutions] *)
Definition institutions : list string :=
  [ "Archive"; "Company"; "Education"; "Facility"; "Government";
    "Healthcare"; "Nonprofit"; "Other";
    "archive"; "company"; "education"; "facility"; "government";
    "healthcare"; "nonprofit"; "other";
    "institution" ].

End Config.

(** Python's [str.lower] and [str.capitalize], on ASCII letters. *)
Definition ascii_lower (c : ascii) : ascii :=
  let n := nat_of_ascii c in
  if (Nat.leb 65 n && Nat.leb n 90)%bool then ascii_of_nat (n + 32) else c.

Definition ascii_upper (c : ascii) : ascii :=
  let n := nat_of_ascii c in
  if (Nat.leb 97 n && Nat.leb n 122)%bool then ascii_of_nat (n - 32) else c.

Fixpoint lower (s : string) : string :=
  match s with
  | EmptyString => EmptyString
  | String c s' => String (ascii_lower c) (lower s')
  end.

Definition capitalize (s : string) : string :=
  match s with
  | EmptyString => EmptyString
  | String c s' => String (ascii_upper c) (lower s')
  end.

(** Two spellings are case variants of one another when they agree up to
    the case of their letters. *)
Definition case_variant (s t : string) : Prop := lower s = lower t.

(** Modelled from the spec: the relation filter of the resolver (the
    repository method [upside_relations] is not part of the service file)
    keeps a relation when its type tag belongs to the [institutions]
    vocabulary; membership in a Python list compares strings exactly. *)
Definition recognized (tag : string) : bool :=
  bool_decide (tag ∈ Config.institutions).

(** ** Schemas *)

(** Modelled from the spec: a reference to a related entity or person, as
    the repositories return them ([schemas/affiliation.py] is not part of
    the service file). *)
Record EntityRef : Type := mkEntityRef {
  ref_id : string;
  ref_name : string;
}.

(** Modelled from the spec: [AffiliationRelatedInfo], four optional tiers
    that default to [None]. *)
Record AffiliationRelatedInfo : Type := mkAffiliationRelatedInfo {
  faculties : option (list EntityRef);
  departments : option (list EntityRef);
  groups : option (list EntityRef);
  authors : option (list EntityRef);
}.

(** [AffiliationRelatedInfo.model_validate(data, from_attributes=True)]:
    every field is read from the key of its name, an absent key leaves the
    default. *)
Definition model_validate (data : gmap string (list EntityRef))
  : result AffiliationRelatedInfo :=
  Ok {| faculties := data !! "faculties";
        departments := data !! "departments";
        groups := data !! "groups";
        authors := data !! "authors" |}.

Definition dump_field (key : string) (v : option (list EntityRef))
    (d : gmap string (list EntityRef)) : gmap string (list EntityRef) :=
  match v with
  | Some x => <[key := x]> d
  | None => d
  end.

(** [result.model_dump(exclude_none=True)] *)
Definition model_dump_exclude_none (r : AffiliationRelatedInfo)
  : gmap string (list EntityRef) :=
  dump_field "authors" (authors r)
    (dump_field "groups" (groups r)
       (dump_field "departments" (departments r)
          (dump_field "faculties" (faculties r) ∅))).

(** Modelled from the spec: an entry of [types] (only its [type] tag is
    read by the service) and a relation: id, name, type tag, optional
    logo. *)
Record TypeEntry : Type := mkTypeEntry {
  type_ : string;
}.

Record Relation : Type := mkRelation {
  rel_id : string;
  rel_name : string;
  rel_type : string;
  rel_logo : option string;
}.

(** [rel.model_dump()]: the dump of a relation is a field-wise copy, kept
    in the same record. *)
Definition rel_model_dump (r : Relation) : Relation := r.

(** [AffiliationSearch], with the attributes the service reads or writes. *)
Record AffiliationSearch : Type := mkAffiliationSearch {
  id : string;
  types : list TypeEntry;
  relations : list Relation;
  affiliations : list Relation;
  logo : option string;
  products_count : Z;
  citations_count : Z;
}.

Definition set_affiliations (v : list Relation) (o : AffiliationSearch) :=
  {| id := id o; types := types o; relations := relations o;
     affiliations := v; logo := logo o;
     products_count := products_count o;
     citations_count := citations_count o |}.

Definition set_logo (v : option string) (o : AffiliationSearch) :=
  {| id := id o; types := types o; relations := relations o;
     affiliations := affiliations o; logo := v;
     products_count := products_count o;
     citations_count := citations_count o |}.

Definition set_products_count (v : Z) (o : AffiliationSearch) :=
  {| id := id o; types := types o; relations := relations o;
     affiliations := affiliations o; logo := logo o;
     products_count := v;
     citations_count := citations_count o |}.

Definition set_citations_count (v : Z) (o : AffiliationSearch) :=
  {| id := id o; types := types o; relations := relations o;
     affiliations := affiliations o; logo := logo o;
     products_count := products_count o;
     citations_count := v |}.

(** Modelled from the spec: the stored [Affiliation] document (the mongo
    model is not part of the service file): identifier, types, relations
    and logo; the counts are not stored on it. *)
Record Affiliation : Type := mkAffiliation {
  doc_id : string;
  doc_types : list TypeEntry;
  doc_relations : list Relation;
  doc_logo : option string;
}.

(** Modelled from the spec:
    [AffiliationSearch.model_validate_json(obj.model_dump_json())], the
    derived attributes start from their defaults. *)
Definition model_validate_json (d : Affiliation) : AffiliationSearch :=
  {| id := doc_id d; types := doc_types d; relations := doc_relations d;
     affiliations := []; logo := doc_logo d;
     products_count := 0; citations_count := 0 |}.

(** Modelled from the spec: the document of the calculations collection. *)
Record AffiliationCalculations : Type := mkAffiliationCalculations {
  calc_citations_count : Z;
}.

(** Modelled from the spec: [AffiliationQueryParams]. *)
Record AffiliationQueryParams : Type := mkAffiliationQueryParams {
  keywords : string;
  skip : Z;
  max : Z;
  sort : string;
  get_search : string;
  page : Z;
}.

(** [GeneralMultiResponse], as serialised by [search]. *)
Record GeneralMultiResponse : Type := mkGeneralMultiResponse {
  total_results : Z;
  page_ : Z;
  data : list AffiliationSearch;
  count : Z;
}.

(** ** Repositories *)

(** The methods of [AffiliationRepository] that the service calls. *)
Record AffiliationRepository : Type := {
  upside_relations :
    list Relation → string → result (list Relation * option string);
  repo_search :
    string → Z → Z → string → string → result (list Affiliation * Z);
  get_affiliations_related_type :
    string → string → option string → result (list EntityRef);
  get_authors_by_affiliation :
    string → option string → result (list EntityRef);
}.

Record WorkRepository : Type := {
  count_papers : string → string → result Z;
}.

Record AffiliationCalculationsRepository : Type := {
  get_by_id : string → result AffiliationCalculations;
}.

(** The service with its registered repositories. *)
Record AffiliationService : Type := {
  repository : AffiliationRepository;
  work_repository : WorkRepository;
  affiliation_calculations_repository : AffiliationCalculationsRepository;
}.

(** ** Objects and the heap *)

Definition loc := positive.

(** A computation of the service: it may mutate the objects of the heap
    and may raise; what was mutated before an exception stays mutated. *)
Definition M (A : Type) : Type :=
  gmap loc AffiliationSearch → result A * gmap loc AffiliationSearch.

#[global] Instance M_ret : MRet M := λ A a h, (Ok a, h).
#[global] Instance M_bind : MBind M :=
  λ A B f m h,
    match m h with
    | (Ok a, h') => f a h'
    | (Err e, h') => (Err e, h')
    end.

Definition lift {A} (r : result A) : M A := λ h, (r, h).

(** [obj.field] *)
Definition getattr {A} (obj : loc) (field : AffiliationSearch → A) : M A :=
  λ h, match h !! obj with
       | Some o => (Ok (field o), h)
       | None => (Err Unallocated, h)
       end.

(** [obj.field = v] *)
Definition setattr (obj : loc)
    (set : AffiliationSearch → AffiliationSearch) : M unit :=
  λ h, match h !! obj with
       | Some o => (Ok (), <[obj := set o]> h)
       | None => (Err Unallocated, h)
       end.

(** A new object. *)
Definition alloc (o : AffiliationSearch) : M loc :=
  λ h, let l := fresh (dom h) in (Ok l, <[l := o]> h).

(** [l[0]] *)
Definition index0 {A} (l : list A) : result A :=
  match l with
  | x :: _ => Ok x
  | [] => Err IndexError
  end.

(** Python's truth value of an optional string. *)
Definition truthy (s : option string) : bool :=
  match s with
  | Some EmptyString => false
  | Some _ => true
  | None => false
  end.

(** Python's [typ in [...]] for an optional string. *)
Definition typ_in (typ : option string) (l : list string) : bool :=
  match typ with
  | Some t => bool_decide (t ∈ l)
  | None => false
  end.

(** ** [AffiliationService.update_affiliation_search] *)

Definition update_affiliation_search (self : AffiliationService)
    (obj : loc) : M loc :=
  rels ← getattr obj relations;
  tys ← getattr obj types;
  t0 ← lift (index0 tys);
  '(affs, lg) ← lift (upside_relations (repository self)
                        (rel_model_dump <$> rels) (type_ t0));
  setattr obj (set_affiliations affs);;
  v ← (if truthy lg then mret lg else getattr obj logo);
  setattr obj (set_logo v);;
  oid ← getattr obj id;
  tys ← getattr obj types;
  t0 ← lift (index0 tys);
  n ← lift (count_papers (work_repository self) oid (type_ t0));
  setattr obj (set_products_count n);;
  oid ← getattr obj id;
  c ← lift (get_by_id (affiliation_calculations_repository self) oid);
  setattr obj (set_citations_count (calc_citations_count c));;
  mret obj.

(** ** [AffiliationService.search] *)

Definition search (self : AffiliationService)
    (params : AffiliationQueryParams) : M GeneralMultiResponse :=
  '(db_objs, total) ← lift (repo_search (repository self)
                              (keywords params) (skip params) (max params)
                              (sort params) (get_search params));
  objs ← mapM (λ d, o ← alloc (model_validate_json d);
                    update_affiliation_search self o) db_objs;
  dumped ← mapM (λ o, getattr o (λ x, x)) objs;
  mret {| total_results := total; page_ := page params;
          data := dumped; count := Z.of_nat (length objs) |}.

(** ** [AffiliationService.get_affiliations] *)

Definition get_affiliations (self : AffiliationService)
    (id : string) (typ : option string)
  : result (gmap string (list EntityRef)) :=
  let data : gmap string (list EntityRef) := ∅ in
  data ← (if bool_decide (typ = Some "institution") then
            r ← get_affiliations_related_type (repository self)
                  id "faculty" typ;
            mret (<["faculties" := r]> data)
          else mret data);
  data ← (if typ_in typ ["faculty"; "institution"] then
            r ← get_affiliations_related_type (repository self)
                  id "department" typ;
            mret (<["departments" := r]> data)
          else mret data);
  data ← (if typ_in typ ["department"; "faculty"; "institution"] then
            r ← get_affiliations_related_type (repository self)
                  id "group" typ;
            mret (<["groups" := r]> data)
          else mret data);
  data ← (if typ_in typ ["group"; "department"; "faculty"] then
            r ← get_authors_by_affiliation (repository self) id typ;
            mret (<["authors" := r]> data)
          else mret data);
  result ← model_validate data;
  mret (model_dump_exclude_none result).

(** ** The collaborator calls of one enrichment *)

(** The calls that [update_affiliation_search] makes for an object all
    return. *)
Definition calls_succeed (self : AffiliationService)
    (o : AffiliationSearch) : bool :=
  match index0 (types o) with
  | Ok t0 =>
      is_ok (upside_relations (repository self)
               (rel_model_dump <$> relations o) (type_ t0))
      && is_ok (count_papers (work_repository self) (id o) (type_ t0))
      && is_ok (get_by_id (affiliation_calculations_repository self) (id o))
  | Err _ => false
  end.

(** ** Auxiliary definitions of the statements and proofs *)

(** The four tags of the hierarchy and the four keys of the tiers. *)
Definition hierarchy_tags : list string :=
  ["institution"; "faculty"; "department"; "group"].

Definition tier_keys : list string :=
  ["faculties"; "departments"; "groups"; "authors"].

(** The dict that [get_affiliations] builds before validation, tier by
    tier. *)
Definition tier (eligible : bool) (key : string)
    (call : result (list EntityRef)) (d : gmap string (list EntityRef))
  : result (gmap string (list EntityRef)) :=
  if eligible then r ← call; mret (<[key := r]> d) else mret d.

(** What [update_affiliation_search] does to the object it is given: the
    outcome, and the object as the assignments made so far leave it. *)
Definition enrich (self : AffiliationService) (o : AffiliationSearch)
  : result unit * AffiliationSearch :=
  match index0 (types o) with
  | Err e => (Err e, o)
  | Ok t0 =>
    match upside_relations (repository self)
            (rel_model_dump <$> relations o) (type_ t0) with
    | Err e => (Err e, o)
    | Ok (affs, lg) =>
      let o1 := set_logo (if truthy lg then lg else logo o)
                  (set_affiliations affs o) in
      match count_papers (work_repository self) (id o) (type_ t0) with
      | Err e => (Err e, o1)
      | Ok n =>
        let o2 := set_products_count n o1 in
        match get_by_id (affiliation_calculations_repository self) (id o) with
        | Err e => (Err e, o2)
        | Ok c => (Ok (), set_citations_count (calc_citations_count c) o2)
        end
      end
    end
  end.

(** One turn of the comprehension of [search]: a new object for the
    document, then its enrichment. *)
Definition enrich_document (self : AffiliationService) (d : Affiliation)
  : M loc :=
  o ← alloc (model_validate_json d); update_affiliation_search self o.

(** The enriched record of a document, as the response carries it. *)
Definition enriched (self : AffiliationService) (d : Affiliation)
  : AffiliationSearch :=
  (enrich self (model_validate_json d)).2.

(** ** Sample data *)

(** Modelled from the spec: the paging of the store's search (the
    repository is not part of the service file): the page is the segment
    of the matches after [skip] of at most [limit] records, the total is
    the number of all matches. *)
Definition paged_search (matches : list Affiliation) (skip limit : Z)
  : result (list Affiliation * Z) :=
  Ok (take (Z.to_nat limit) (drop (Z.to_nat skip) matches),
      Z.of_nat (length matches)).

(** A department without relations and with a stored logo, and a group
    that has no document in the calculations collection. *)
Definition department_B : Affiliation :=
  {| doc_id := "B"; doc_types := [ {| type_ := "department" |} ];
     doc_relations := []; doc_logo := Some "old.png" |}.

Definition group_G : Affiliation :=
  {| doc_id := "G"; doc_types := [ {| type_ := "group" |} ];
     doc_relations := []; doc_logo := None |}.

Definition untyped_U : Affiliation :=
  {| doc_id := "U"; doc_types := []; doc_relations := [];
     doc_logo := None |}.

Definition sample_repository (matches : list Affiliation)
  : AffiliationRepository :=
  {| upside_relations := λ _ _, Ok ([], None);
     repo_search := λ _ skip limit _ _, paged_search matches skip limit;
     get_affiliations_related_type :=
       λ id child _, Ok [ {| ref_id := id; ref_name := child |} ];
     get_authors_by_affiliation :=
       λ id _, Ok [ {| ref_id := id; ref_name := "author" |} ] |}.

Definition sample_work_repository : WorkRepository :=
  {| count_papers := λ _ _, Ok 7 |}.

(** Modelled from the spec: a calculations repository (the repository is
    not part of the service file) whose lookup by id returns the record of
    the id or [NotFound]; only "B" has a record. *)
Definition sample_calculations_repository
  : AffiliationCalculationsRepository :=
  {| get_by_id := λ i,
       if bool_decide (i = "B") then Ok {| calc_citations_count := 12 |}
       else Err NotFound |}.

Definition sample_service (matches : list Affiliation)
  : AffiliationService :=
  {| repository := sample_repository matches;
     work_repository := sample_work_repository;
     affiliation_calculations_repository :=
       sample_calculations_repository |}.

Definition sample_params : AffiliationQueryParams :=
  {| keywords := "universidad"; skip := 0; max := 10; sort := "name";
     get_search := "keywords"; page := 1 |}.

Definition sample_heap (d : Affiliation) : gmap loc AffiliationSearch :=
  {[ 1%positive := model_validate_json d ]}.

(** A Python dict display: of two items with one key the later stays. *)
Definition dict_display {V} (items : list (string * V)) : gmap string V :=
  fold_left (λ m kv, <[kv.1 := kv.2]> m) items ∅.

(** ** [core/config.py]: the class body of [Settings] *)

Module Settings.

(** The exception of a failed [env[key]]. *)
Inductive key_error : Set :=
  | KeyError (key : string).

#[global] Instance key_error_ret : MRet (sum key_error) := λ A a, inr a.
#[global] Instance key_error_bind : MBind (sum key_error) :=
  λ A B f r, match r with inr a => f a | inl e => inl e end.

(** [env]: empty, or the variables of the file of the environment;
    [dotenv_values] gives [None] to a variable without a value. *)
Definition env (environment : option string)
    (dotenv_values : string → gmap string (option string))
  : gmap string (option string) :=
  if bool_decide (environment = Some "dev") then dotenv_values ".env.dev"
  else if bool_decide (environment = Some "prod") then
    dotenv_values ".env.prod"
  else ∅.

(** [env[key]] *)
Definition getitem (e : gmap string (option string)) (key : string)
  : key_error + option string :=
  match e !! key with
  | Some v => inr v
  | None => inl (KeyError key)
  end.

(** The defaults that the class body reads from [env]. *)
Record defaults : Type := mkDefaults {
  APP_NAME : option string;
  APP_VERSION : option string;
  APP_DEBUG : option string;
  APP_PORT : option string;
  APP_DOMAIN : option string;
  APP_ENVIRONMENT : option string;
  APP_V1_STR : option string;
  APP_V2_STR : option string;
  API_V1_STR : option string;
  API_V2_STR : option string;
  MONGO_SERVER : option string;
  MONGO_INITDB_ROOT_USERNAME : option string;
  MONGO_INITDB_ROOT_PASSWORD : option string;
  MONGO_INITDB_DATABASE : option string;
  MONGO_INITDB_PORT : option string;
  MONGO_IMPACTU_DB : option string;
}.

(** The assignments of the class body, in their order. *)
Definition class_body (e : gmap string (option string))
  : key_error + defaults :=
  v1 ← getitem e "APP_NAME";
  v2 ← getitem e "APP_VERSION";
  v3 ← getitem e "APP_DEBUG";
  v4 ← getitem e "APP_PORT";
  v5 ← getitem e "APP_DOMAIN";
  v6 ← getitem e "APP_ENVIRONMENT";
  v7 ← getitem e "APP_V1_STR";
  v8 ← getitem e "APP_V2_STR";
  v9 ← getitem e "API_V1_STR";
  v10 ← getitem e "API_V2_STR";
  v11 ← getitem e "MONGO_SERVER";
  v12 ← getitem e "MONGO_INITDB_ROOT_USERNAME";
  v13 ← getitem e "MONGO_INITDB_ROOT_PASSWORD";
  v14 ← getitem e "MONGO_INITDB_DATABASE";
  v15 ← getitem e "MONGO_INITDB_PORT";
  v16 ← getitem e "MONGO_IMPACTU_DB";
  mret {| APP_NAME := v1; APP_VERSION := v2; APP_DEBUG := v3;
          APP_PORT := v4; APP_DOMAIN := v5; APP_ENVIRONMENT := v6;
          APP_V1_STR := v7; APP_V2_STR := v8; API_V1_STR := v9;
          API_V2_STR := v10; MONGO_SERVER := v11;
          MONGO_INITDB_ROOT_USERNAME := v12;
          MONGO_INITDB_ROOT_PASSWORD := v13;
          MONGO_INITDB_DATABASE := v14; MONGO_INITDB_PORT := v15;
          MONGO_IMPACTU_DB := v16 |}.

(** The keys that the class body reads, in the order of the reads. *)
Definition keys : list string :=
  [ "APP_NAME"; "APP_VERSION"; "APP_DEBUG"; "APP_PORT"; "APP_DOMAIN";
    "APP_ENVIRONMENT"; "APP_V1_STR"; "APP_V2_STR"; "API_V1_STR";
    "API_V2_STR"; "MONGO_SERVER"; "MONGO_INITDB_ROOT_USERNAME";
    "MONGO_INITDB_ROOT_PASSWORD"; "MONGO_INITDB_DATABASE";
    "MONGO_INITDB_PORT"; "MONGO_IMPACTU_DB" ].

(** The first key of a list that a dict lacks. *)
Fixpoint first_missing (e : gmap string (option string)) (ks : list string)
  : option string :=
  match ks with
  | [] => None
  | k :: ks' =>
      match e !! k with
      | Some _ => first_missing e ks'
      | None => Some k
      end
  end.

(** The items of [Settings.EXTERNAL_IDS_MAP]; the first value is the
    concatenation of two adjacent literals. *)
Definition EXTERNAL_IDS_MAP_items : list (string * string) :=
  [ ("scholar",
     "https://scholar.google.com/scholar?hl="
     +:+ "en&as_sdt=0%2C5&q=info%3A{id}%3Ascholar.google.com");
    ("doi", "https://doi.org/{id}");
    ("lens", "https://www.lens.org/lens/scholar/article/{id}");
    ("minciencias", "");
    ("scienti", "") ].

Definition EXTERNAL_IDS_MAP : gmap string string :=
  dict_display EXTERNAL_IDS_MAP_items.

(** The items of [Settings.TYPES]. *)
Definition TYPES_items : list (string * string) :=
  [ ("peer-review", "Revisión por partes");
    ("techreport", "Informe técnico");
    ("masterthesis", "Tesis de maestría");
    ("dataset", "Conjunto de datos");
    ("editorial", "Editorial");
    ("Publicado en revista especializada",
     "Publicado en revista especializada");
    ("report", "Informe");
    ("Artículos", "Artículos");
    ("letter", "Carta");
    ("Corto (resumen)", "Resumen");
    ("reference-entry", "Entrada de referencia");
    ("dissertation", "Disertación");
    ("standard", "Estándar");
    ("Artículos de investigación", "Artículos de investigación");
    ("Artículo", "Artículo");
    ("incollection", "En colección");
    ("book", "Libro");
    ("article", "Artículo");
    ("Caso clínico", "Caso clínico");
    ("paratext", "Paratexto");
    ("misc", "Misceláneo");
    ("erratum", "Errata");
    ("Revisión (Survey)", "Revisión");
    ("inproceedings", "En actas") ].

Definition TYPES : gmap string string := dict_display TYPES_items.

(** The number of occurrences of a non-empty pattern in a string. *)
Fixpoint occurrences (pat s : string) : nat :=
  match s with
  | EmptyString => 0%nat
  | String _ s' =>
      ((if String.prefix pat s then 1 else 0) + occurrences pat s')%nat
  end.

End Settings.

(** ** [AffiliationService.plot_mappings] *)

(** The handlers of [affiliation_plots_service] that the table names. *)
Inductive plot_handler : Set :=
  | get_products_by_year_by_type
  | get_products_by_affiliation_by_type
  | get_citations_by_year
  | get_apc_by_year
  | get_oa_by_year
  | get_products_by_year_by_publisher
  | get_h_by_year
  | get_products_by_year_by_researcher_category
  | get_products_by_year_by_group_category
  | get_title_words
  | get_citations_by_affiliations
  | get_products_by_affiliations
  | get_apc_by_affiliations
  | get_h_by_affiliations
  | get_products_by_publisher
  | get_products_by_subject
  | get_products_by_database
  | get_products_by_open_access_status
  | get_products_by_author_sex
  | get_products_by_author_age
  | get_products_by_scienti_rank
  | get_products_by_scimago_rank
  | get_publisher_same_institution
  | get_coauthorships_worldmap
  | get_coauthorships_colombiamap
  | get_coauthorships_network.

Definition plot_mappings_items : list (string * plot_handler) :=
  [ ("year_type", get_products_by_year_by_type);
    ("type,faculty", get_products_by_affiliation_by_type);
    ("type,department", get_products_by_affiliation_by_type);
    ("type,group", get_products_by_affiliation_by_type);
    ("year_citations", get_citations_by_year);
    ("year_apc", get_apc_by_year);
    ("year_oa", get_oa_by_year);
    ("year_publisher", get_products_by_year_by_publisher);
    ("year_h", get_h_by_year);
    ("year_researcher", get_products_by_year_by_researcher_category);
    ("year_group", get_products_by_year_by_group_category);
    ("title_words", get_title_words);
    ("citations,faculty", get_citations_by_affiliations);
    ("citations,department", get_citations_by_affiliations);
    ("citations,group", get_citations_by_affiliations);
    ("products,faculty", get_products_by_affiliations);
    ("products,department", get_products_by_affiliations);
    ("products,group", get_products_by_affiliations);
    ("apc,faculty", get_apc_by_affiliations);
    ("apc,department", get_apc_by_affiliations);
    ("apc,group", get_apc_by_affiliations);
    ("h,faculty", get_h_by_affiliations);
    ("h,department", get_h_by_affiliations);
    ("h,group", get_h_by_affiliations);
    ("products_publisher", get_products_by_publisher);
    ("products_subject", get_products_by_subject);
    ("products_database", get_products_by_database);
    ("products_oa", get_products_by_open_access_status);
    ("products_sex", get_products_by_author_sex);
    ("products_age", get_products_by_author_age);
    ("scienti_rank", get_products_by_scienti_rank);
    ("scimago_rank", get_products_by_scimago_rank);
    ("published_institution", get_publisher_same_institution);
    ("collaboration_worldmap", get_coauthorships_worldmap);
    ("collaboration_colombiamap", get_coauthorships_colombiamap);
    ("collaboration_network", get_coauthorships_network) ].

Definition plot_mappings : gmap string plot_handler :=
  dict_display plot_mappings_items.

(** ** [AffiliationService.get_info] *)

(** The service with the lookup by id of its own repository; the lookup
    gives the stored document, which [info_class] validates like
    [AffiliationSearch] does, on the attributes that the service uses. *)
Record AffiliationInfoService : Type := {
  info_service : AffiliationService;
  repository_get_by_id : string → result Affiliation;
}.

(** The dict that [get_info] returns. *)
Record InfoResponse : Type := mkInfoResponse {
  info_data : AffiliationSearch;
  info_filters : gmap string string;
}.

Definition get_info (self : AffiliationInfoService) (id : string)
  : M InfoResponse :=
  basic_info ← lift (repository_get_by_id self id);
  affiliation ← alloc (model_validate_json basic_info);
  update_affiliation_search (info_service self) affiliation;;
  dumped ← getattr affiliation (λ x, x);
  mret {| info_data := dumped; info_filters := ∅ |}.

(** ** [AffiliationService.update_author_external_ids] and
    [AffiliationService.get_research_products] *)

(** The schemas of works and persons are not part of the service file:
    the service reads [work.authors], [author.id] and
    [person.external_ids], writes [author.external_ids] and treats all
    the rest as opaque. [X] is an external id of a person, [E] its dump,
    [P] and [R] the other attributes of an author and of a work, [F] the
    filter of a query, [AF] the available filters of a listing and [L]
    the dump of a [WorkListApp]. *)
Section Works.
Context {X E P R F AF L : Type}.

Record PersonInfo : Type := mkPersonInfo {
  person_external_ids : list X;
}.

Record Author : Type := mkAuthor {
  author_id : option string;
  author_external_ids : list E;
  author_other : P;
}.

Record WorkProccessed : Type := mkWorkProccessed {
  work_authors : list Author;
  work_other : R;
}.

Record PersonRepository : Type := {
  person_get_by_id : string → result PersonInfo;
}.

(** [WorkQueryParams]; [get_filter] stands for [params.get_filter()]. *)
Record WorkQueryParams : Type := mkWorkQueryParams {
  wq_skip : Z;
  wq_max : Z;
  wq_sort : string;
  get_filter : F;
}.

(** The methods of [WorkRepository] that [get_research_products] calls;
    [count_papers_filters] is [count_papers] with its [filters]. *)
Record WorkProductsRepository : Type := {
  get_research_products_by_affiliation :
    string → string → Z → Z → string → F →
    result (list WorkProccessed * AF);
  count_papers_filters : string → string → F → result Z;
}.

(** The dict that [get_research_products] returns. *)
Record ResearchProducts : Type := mkResearchProducts {
  rp_data : list L;
  rp_total_results : Z;
  rp_count : Z;
  rp_filters : AF;
}.

Definition set_external_ids (v : list E) (a : Author) : Author :=
  {| author_id := author_id a; author_external_ids := v;
     author_other := author_other a |}.

Definition set_authors (v : list Author) (w : WorkProccessed)
  : WorkProccessed :=
  {| work_authors := v; work_other := work_other w |}.

(** [PersonInfo.model_validate_json(
      self.person_repository.get_by_id(id=author.id)).external_ids
    if author.id else []] *)
Definition ext_ids (person_repository : PersonRepository) (a : Author)
  : result (list X) :=
  match author_id a with
  | Some i =>
      if truthy (Some i) then
        p ← person_get_by_id person_repository i;
        mret (person_external_ids p)
      else mret []
  | None => mret []
  end.

(** The loop over [work.authors]: the outcome, and the authors as the
    assignments made so far leave them. *)
Fixpoint update_authors (person_repository : PersonRepository)
    (model_dump : X → E) (authors : list Author)
  : result unit * list Author :=
  match authors with
  | [] => (Ok (), [])
  | author :: rest =>
      match ext_ids person_repository author with
      | Err e => (Err e, author :: rest)
      | Ok ids =>
          let author' := set_external_ids (model_dump <$> ids) author in
          let '(r, rest') :=
            update_authors person_repository model_dump rest in
          (r, author' :: rest')
      end
  end.

(** The work is changed in place and returned: the outcome, and the
    work as the call leaves it. *)
Definition update_author_external_ids
    (person_repository : PersonRepository) (model_dump : X → E)
    (work : WorkProccessed) : result WorkProccessed * WorkProccessed :=
  let '(r, authors') :=
    update_authors person_repository model_dump (work_authors work) in
  let work' := set_authors authors' work in
  (match r with Ok _ => Ok work' | Err e => Err e end, work').

Definition get_research_products
    (work_repository : WorkProductsRepository)
    (person_repository : PersonRepository) (model_dump : X → E)
    (to_list_app : WorkProccessed → result L)
    (id typ : string) (params : WorkQueryParams)
  : result ResearchProducts :=
  '(works, available_filters) ←
    get_research_products_by_affiliation work_repository id typ
      (wq_skip params) (wq_max params) (wq_sort params)
      (get_filter params);
  total_works ← count_papers_filters work_repository id typ
                  (get_filter params);
  data ← mapM (λ work,
                 w ← (update_author_external_ids person_repository
                        model_dump work).1;
                 to_list_app w) works;
  mret {| rp_data := data; rp_total_results := total_works;
          rp_count := Z.of_nat (length data);
          rp_filters := available_filters |}.

End Works.

Arguments PersonInfo : clear implicits.
Arguments Author : clear implicits.
Arguments WorkProccessed : clear implicits.
Arguments PersonRepository : clear implicits.
Arguments WorkQueryParams : clear implicits.
Arguments WorkProductsRepository : clear implicits.
Arguments ResearchProducts : clear implicits.

(** Sample persons and works: external ids and their dumps are strings,
    authors and works have no other attribute, a filter is a string and
    the dump of a work for the list is the number of its authors. *)
Definition sample_person_repository : PersonRepository string :=
  {| person_get_by_id := λ i,
       if bool_decide (i = "P1") then
         Ok {| person_external_ids := ["orcid:0000-0001"; "scholar:abc"] |}
       else Err NotFound |}.

Definition sample_work : WorkProccessed string unit unit :=
  {| work_authors :=
       [ {| author_id := Some "P1"; author_external_ids := [];
            author_other := () |};
         {| author_id := None; author_external_ids := ["stale"];
            author_other := () |};
         {| author_id := Some ""; author_external_ids := [];
            author_other := () |} ];
     work_other := () |}.

Definition sample_work_unknown_author : WorkProccessed string unit unit :=
  {| work_authors :=
       [ {| author_id := Some "P1"; author_external_ids := [];
            author_other := () |};
         {| author_id := Some "P9"; author_external_ids := ["stale"];
            author_other := () |};
         {| author_id := Some "P1"; author_external_ids := [];
            author_other := () |} ];
     work_other := () |}.

Definition sample_products_repository
    (works : list (WorkProccessed string unit unit))
  : WorkProductsRepository string unit unit string (list string) :=
  {| get_research_products_by_affiliation :=
       λ _ _ _ _ _ _, Ok (works, ["year"; "type"]);
     count_papers_filters := λ _ _ _, Ok 5 |}.

Definition sample_work_params : WorkQueryParams string :=
  {| wq_skip := 0; wq_max := 10; wq_sort := "citations";
     get_filter := "year=2020" |}.

Definition sample_to_list_app (w : WorkProccessed string unit unit)
  : result nat :=
  Ok (length (work_authors w)).

Definition sample_info_service (matches : list Affiliation)
  : AffiliationInfoService :=
  {| info_service := sample_service matches;
     repository_get_by_id := λ i,
       if bool_decide (i = "B") then Ok department_B else Err NotFound |}.

(** A file of variables that defines "APP_NAME" only, and one that
    defines all the keys of the class body. *)
Definition sample_env_short : gmap string (option string) :=
  {[ "APP_NAME" := Some "quyca" ]}.

Definition sample_env_full : gmap string (option string) :=
  list_to_map ((λ k, (k, Some "value")) <$> Settings.keys).

(** ** [AffiliationService.get_research_products_json] and
    [AffiliationService.get_research_products_csv] *)

(** The work documents, their schemas and [source_service] are not part
    of the service file and are opaque to it: [W] is a stored work, [S]
    and [C] the [WorkSchema] and [WorkCsv] objects, [D] and [DC] their
    dumps, [Cur] the cursor of [params.get_cursor]. *)
Section Exports.
Context {W S D C DC Cur : Type}.

(** The method of [WorkRepository] that both exports call, with the
    affiliation id and type, then [skip], [limit] and [sort]. *)
Record WorkCsvRepository : Type := {
  get_research_products_by_affiliation_csv :
    string → string → option Z → option Z → option string →
    result (list W);
}.

(** The dict that [get_research_products_json] returns, with the keys of
    its ["info"]. *)
Record JsonProducts : Type := mkJsonProducts {
  js_data : list D;
  js_total_products : Z;
  js_count : Z;
  js_cursor : Cur;
}.

Definition get_research_products_json
    (csv_repository : WorkCsvRepository) (work_repository : WorkRepository)
    (model_validate : W → result S) (update_source : S → result S)
    (model_dump : S → D)
    (get_cursor : AffiliationQueryParams → string → Z → Cur)
    (API_V1_STR : string)
    (id typ : string) (params : AffiliationQueryParams)
  : result JsonProducts :=
  works ← get_research_products_by_affiliation_csv csv_repository id typ
            (Some (skip params)) (Some (max params)) (Some (sort params));
  data ← mapM (λ work, s ← model_validate work;
                       s' ← update_source s;
                       mret (model_dump s')) works;
  total ← count_papers work_repository id typ;
  mret {| js_data := data;
          js_total_products := total;
          js_count := Z.of_nat (length data);
          js_cursor :=
            get_cursor params
              (API_V1_STR +:+ "/affiliation/" +:+ typ +:+ "/" +:+ id
               +:+ "/research/products") total |}.

Definition get_research_products_csv
    (csv_repository : WorkCsvRepository)
    (model_validate : W → result C) (update_source : C → result C)
    (model_dump : C → DC)
    (id typ : string) (sort : option string) (skip limit : option Z)
  : result (list DC) :=
  works ← get_research_products_by_affiliation_csv csv_repository id typ
            skip limit sort;
  mapM (λ work, c ← model_validate work;
                c' ← update_source c;
                mret (model_dump c')) works.

End Exports.

Arguments WorkCsvRepository : clear implicits.
Arguments JsonProducts : clear implicits.

(** Sample exports: a stored work, its schema objects and their dumps are
    strings, the cursor is the path with the total. *)
Definition sample_csv_repository (works : list string)
  : WorkCsvRepository string :=
  {| get_research_products_by_affiliation_csv := λ _ _ _ _ _, Ok works |}.

Definition sample_get_cursor (params : AffiliationQueryParams)
    (path : string) (total : Z) : string * Z :=
  (path, total).

(** An affiliation with other entries after the first one of [types]. *)
Definition with_later_types (ts : list TypeEntry) (o : AffiliationSearch)
  : AffiliationSearch :=
  {| id := id o;
     types := match types o with [] => [] | t0 :: _ => t0 :: ts end;
     relations := relations o;
     affiliations := affiliations o; logo := logo o;
     products_count := products_count o;
     citations_count := citations_count o |}.

(** Hypotheses on the presence of keys, once their lookups are known. *)
Ltac is_some_tac :=
  repeat match goal with
         | H : _ ∧ _ |- _ => destruct H
         | H : is_Some _ |- _ => destruct H
         end;
  simplify_map_eq; eauto.

(** ** Proof automation *)

Ltac tier_keys_tac :=
  let k := fresh "k" in let x := fresh "x" in let Hx := fresh "Hx" in
  intros k [x Hx]; unfold tier_keys;
  repeat (apply lookup_insert_Some in Hx as [[<- _] | [_ Hx]];
          [set_solver |]);
  by rewrite lookup_empty in Hx.

Ltac tier_iff_tac :=
  let r := fresh "r" in let H := fresh "H" in
  intros r; split;
  [ intros H; simplify_map_eq; (split; [set_solver | congruence])
  | intros [? H]; first [ simplify_map_eq; congruence | exfalso; set_solver ] ].

Ltac tier_dom_tac :=
  first [ intros _; rewrite ?dom_insert_L, ?dom_empty_L; set_solver
        | discriminate ].

Ltac tiers_tac :=
  intros [= <-];
  split; [tier_iff_tac |]; split; [tier_iff_tac |];
  split; [tier_iff_tac |]; split; [tier_iff_tac |];
  split; [tier_keys_tac |]; split; tier_dom_tac.

(** ** The vocabulary *)

Lemma in_institutions (s : string) :
  bool_decide (s ∈ Config.institutions) = true → s ∈ Config.institutions.
Proof. intros H. apply bool_decide_eq_true in H. exact H. Qed.

(** C7 (as amended): every synonym of the vocabulary other than
    "institution" is a member in its capitalized and in its lowercase
    spelling, and the membership filter accepts both spellings alike. *)
Theorem institutions_both_spellings (s : string) :
  s ∈ Config.institutions →
  s ≠ "institution" →
  capitalize s ∈ Config.institutions
  ∧ lower s ∈ Config.institutions
  ∧ recognized (capitalize s) = true
  ∧ recognized (lower s) = true.
Proof.
  intros Hs Hne. unfold recognized.
  unfold Config.institutions in Hs.
  repeat (apply elem_of_cons in Hs as [-> | Hs];
          [ try congruence;
            repeat split; try apply in_institutions; vm_compute; reflexivity
          | ]).
  by apply elem_of_nil in Hs.
Qed.

Lemma institutions_both_spellings_witness :
  capitalize "education" = "Education"
  ∧ capitalize "education" ∈ Config.institutions
  ∧ lower "education" ∈ Config.institutions.
Proof.
  split; [reflexivity |].
  assert (Hin : "education" ∈ Config.institutions)
    by (apply in_institutions; vm_compute; reflexivity).
  assert (Hne : "education" ≠ "institution") by discriminate.
  destruct (institutions_both_spellings "education" Hin Hne) as (Hc & Hl & _).
  split; [exact Hc | exact Hl].
Defined.

(** C7 (as stated) fails: "institution" belongs to the vocabulary, its
    capitalized spelling does not, and the membership filter tells the two
    case variants apart. *)
Lemma institutions_capitalized_missing :
  "institution" ∈ Config.institutions
  ∧ capitalize "institution" = "Institution"
  ∧ ("Institution" ∉ Config.institutions)
  ∧ case_variant "institution" "Institution"
  ∧ (recognized "institution" ≠ recognized "Institution")
  ∧ ¬ (∀ s, s ∈ Config.institutions →
            capitalize s ∈ Config.institutions
            ∧ lower s ∈ Config.institutions).
Proof.
  assert (Hin : "institution" ∈ Config.institutions)
    by (apply in_institutions; vm_compute; reflexivity).
  assert (Hout : "Institution" ∉ Config.institutions).
  { intros H. apply (bool_decide_pack _) in H. vm_compute in H. exact H. }
  repeat split; try done.
  intros H. destruct (H "institution" Hin) as [Hc _]. exact (Hout Hc).
Qed.

(** ** The related-entity assembler *)

Lemma typ_in_spec (typ : option string) (l : list string) :
  typ_in typ l = true ↔ typ ∈ (Some <$> l).
Proof.
  destruct typ as [t |]; simpl.
  - rewrite bool_decide_eq_true, list_elem_of_fmap. split.
    + intros H. by exists t.
    + intros (t' & [= ->] & H). exact H.
  - split; [discriminate |].
    rewrite list_elem_of_fmap. intros (t' & [=] & _).
Qed.

Lemma typ_cases (typ : option string) :
  typ = Some "institution" ∨ typ = Some "faculty"
  ∨ typ = Some "department" ∨ typ = Some "group"
  ∨ typ ∉ (Some <$> hierarchy_tags).
Proof.
  destruct (decide (typ = Some "institution")); [by left | right].
  destruct (decide (typ = Some "faculty")); [by left | right].
  destruct (decide (typ = Some "department")); [by left | right].
  destruct (decide (typ = Some "group")); [by left | right].
  unfold hierarchy_tags. simpl. set_solver.
Qed.

Lemma unrecognized_conditions (typ : option string) :
  typ ∉ (Some <$> hierarchy_tags) →
  bool_decide (typ = Some "institution") = false
  ∧ typ_in typ ["faculty"; "institution"] = false
  ∧ typ_in typ ["department"; "faculty"; "institution"] = false
  ∧ typ_in typ ["group"; "department"; "faculty"] = false.
Proof.
  intros H. unfold hierarchy_tags in H. simpl in H.
  repeat split.
  - apply bool_decide_eq_false. set_solver.
  - apply not_true_is_false. rewrite typ_in_spec. simpl. set_solver.
  - apply not_true_is_false. rewrite typ_in_spec. simpl. set_solver.
  - apply not_true_is_false. rewrite typ_in_spec. simpl. set_solver.
Qed.

Lemma get_affiliations_no_tier (self : AffiliationService)
    (id : string) (typ : option string) :
  typ ∉ (Some <$> hierarchy_tags) →
  get_affiliations self id typ = Ok ∅.
Proof.
  intros H. destruct (unrecognized_conditions typ H) as (H1 & H2 & H3 & H4).
  unfold get_affiliations. rewrite H1, H2, H3, H4. reflexivity.
Qed.

(** C6: for a type that is none of the four hierarchy tags ([None]
    included) the assembler returns the empty mapping and raises nothing,
    whatever the repositories do. *)
Theorem get_affiliations_unrecognized (self : AffiliationService)
    (id : string) (typ : option string) :
  typ ∉ (Some <$> hierarchy_tags) →
  get_affiliations self id typ = Ok ∅.
Proof. apply get_affiliations_no_tier. Qed.

(** The dump of a validated dict whose keys are tier names is that dict. *)
Lemma dump_validate_lookup (d : gmap string (list EntityRef)) (k : string) :
  model_dump_exclude_none
    {| faculties := d !! "faculties"; departments := d !! "departments";
       groups := d !! "groups"; authors := d !! "authors" |} !! k
  = if bool_decide (k ∈ ["faculties"; "departments"; "groups"; "authors"])
    then d !! k else None.
Proof.
  unfold model_dump_exclude_none, dump_field; simpl.
  destruct (decide (k = "authors")) as [-> | Ha];
    [destruct (d !! "authors") eqn:E4; destruct (d !! "groups") eqn:E3;
     destruct (d !! "departments") eqn:E2; destruct (d !! "faculties") eqn:E1;
     simplify_map_eq; reflexivity |].
  destruct (decide (k = "groups")) as [-> | Hg];
    [destruct (d !! "authors") eqn:E4; destruct (d !! "groups") eqn:E3;
     destruct (d !! "departments") eqn:E2; destruct (d !! "faculties") eqn:E1;
     simplify_map_eq; reflexivity |].
  destruct (decide (k = "departments")) as [-> | Hd];
    [destruct (d !! "authors") eqn:E4; destruct (d !! "groups") eqn:E3;
     destruct (d !! "departments") eqn:E2; destruct (d !! "faculties") eqn:E1;
     simplify_map_eq; reflexivity |].
  destruct (decide (k = "faculties")) as [-> | Hf];
    [destruct (d !! "authors") eqn:E4; destruct (d !! "groups") eqn:E3;
     destruct (d !! "departments") eqn:E2; destruct (d !! "faculties") eqn:E1;
     simplify_map_eq; reflexivity |].
  rewrite bool_decide_eq_false_2 by set_solver.
  destruct (d !! "authors"), (d !! "groups"), (d !! "departments"),
    (d !! "faculties"); simplify_map_eq; reflexivity.
Qed.

Lemma dump_validate_id (d : gmap string (list EntityRef)) :
  (∀ k, is_Some (d !! k) → k ∈ tier_keys) →
  model_dump_exclude_none
    {| faculties := d !! "faculties"; departments := d !! "departments";
       groups := d !! "groups"; authors := d !! "authors" |} = d.
Proof.
  intros Hk. apply map_eq. intros k. rewrite dump_validate_lookup.
  case_bool_decide as Hin; [reflexivity |].
  destruct (d !! k) eqn:E; [| reflexivity].
  exfalso. apply Hin, Hk. rewrite E. by eexists.
Qed.

Lemma tag_conditions :
  (bool_decide (Some "institution" = Some "institution") = true
   ∧ typ_in (Some "institution") ["faculty"; "institution"] = true
   ∧ typ_in (Some "institution") ["department"; "faculty"; "institution"] = true
   ∧ typ_in (Some "institution") ["group"; "department"; "faculty"] = false)
  ∧ (bool_decide (Some "faculty" = Some "institution") = false
   ∧ typ_in (Some "faculty") ["faculty"; "institution"] = true
   ∧ typ_in (Some "faculty") ["department"; "faculty"; "institution"] = true
   ∧ typ_in (Some "faculty") ["group"; "department"; "faculty"] = true)
  ∧ (bool_decide (Some "department" = Some "institution") = false
   ∧ typ_in (Some "department") ["faculty"; "institution"] = false
   ∧ typ_in (Some "department") ["department"; "faculty"; "institution"] = true
   ∧ typ_in (Some "department") ["group"; "department"; "faculty"] = true)
  ∧ (bool_decide (Some "group" = Some "institution") = false
   ∧ typ_in (Some "group") ["faculty"; "institution"] = false
   ∧ typ_in (Some "group") ["department"; "faculty"; "institution"] = false
   ∧ typ_in (Some "group") ["group"; "department"; "faculty"] = true).
Proof. repeat split; vm_compute; reflexivity. Qed.

Lemma get_affiliations_unfold (self : AffiliationService)
    (id : string) (typ : option string) :
  get_affiliations self id typ =
    (d1 ← tier (bool_decide (typ = Some "institution")) "faculties"
            (get_affiliations_related_type (repository self) id "faculty" typ) ∅;
     d2 ← tier (typ_in typ ["faculty"; "institution"]) "departments"
            (get_affiliations_related_type (repository self) id "department" typ) d1;
     d3 ← tier (typ_in typ ["department"; "faculty"; "institution"]) "groups"
            (get_affiliations_related_type (repository self) id "group" typ) d2;
     d4 ← tier (typ_in typ ["group"; "department"; "faculty"]) "authors"
            (get_authors_by_affiliation (repository self) id typ) d3;
     result ← model_validate d4;
     mret (model_dump_exclude_none result)).
Proof. reflexivity. Qed.

(** C1: the assembler returns whenever the repository calls do, and its
    result holds each tier exactly under the eligibility table: faculties
    for "institution"; departments for "faculty" and "institution"; groups
    for "department", "faculty" and "institution"; authors for "group",
    "department" and "faculty". For "institution" the keys are faculties,
    departments and groups; for "group" the only key is authors. *)
Theorem get_affiliations_tiers (self : AffiliationService)
    (id : string) (typ : option string) :
  ((∀ child, is_ok (get_affiliations_related_type (repository self)
                      id child typ) = true) →
   is_ok (get_authors_by_affiliation (repository self) id typ) = true →
   is_ok (get_affiliations self id typ) = true)
  ∧ (∀ d, get_affiliations self id typ = Ok d →
       (∀ r, d !! "faculties" = Some r ↔
             typ = Some "institution"
             ∧ get_affiliations_related_type (repository self)
                 id "faculty" typ = Ok r)
       ∧ (∀ r, d !! "departments" = Some r ↔
             typ ∈ [Some "faculty"; Some "institution"]
             ∧ get_affiliations_related_type (repository self)
                 id "department" typ = Ok r)
       ∧ (∀ r, d !! "groups" = Some r ↔
             typ ∈ [Some "department"; Some "faculty"; Some "institution"]
             ∧ get_affiliations_related_type (repository self)
                 id "group" typ = Ok r)
       ∧ (∀ r, d !! "authors" = Some r ↔
             typ ∈ [Some "group"; Some "department"; Some "faculty"]
             ∧ get_authors_by_affiliation (repository self) id typ = Ok r)
       ∧ (∀ k, is_Some (d !! k) → k ∈ tier_keys)
       ∧ (typ = Some "institution" →
          dom d = {["faculties"; "departments"; "groups"]})
       ∧ (typ = Some "group" → dom d = {["authors"]})).
Proof.
  destruct tag_conditions as ((I1 & I2 & I3 & I4) & (F1 & F2 & F3 & F4)
                              & (D1 & D2 & D3 & D4) & (G1 & G2 & G3 & G4)).
  split.
  - intros Hrel Haut. rewrite get_affiliations_unfold. unfold tier.
    pose proof (Hrel "faculty") as Hf. pose proof (Hrel "department") as Hd.
    pose proof (Hrel "group") as Hg.
    destruct (get_affiliations_related_type _ id "faculty" typ); [| discriminate].
    destruct (get_affiliations_related_type _ id "department" typ); [| discriminate].
    destruct (get_affiliations_related_type _ id "group" typ); [| discriminate].
    destruct (get_authors_by_affiliation _ id typ); [| discriminate].
    destruct (bool_decide (typ = Some "institution")),
      (typ_in typ ["faculty"; "institution"]),
      (typ_in typ ["department"; "faculty"; "institution"]),
      (typ_in typ ["group"; "department"; "faculty"]); reflexivity.
  - intros d. destruct (typ_cases typ) as [-> | [-> | [-> | [-> | Hun]]]].
    + rewrite get_affiliations_unfold, I1, I2, I3, I4. unfold tier.
      destruct (get_affiliations_related_type _ id "faculty" _) as [r1 |]; [| discriminate].
      destruct (get_affiliations_related_type _ id "department" _) as [r2 |]; [| discriminate].
      destruct (get_affiliations_related_type _ id "group" _) as [r3 |]; [| discriminate].
      simpl. unfold model_validate. simpl.
      rewrite dump_validate_id by tier_keys_tac. tiers_tac.
    + rewrite get_affiliations_unfold, F1, F2, F3, F4. unfold tier.
      destruct (get_affiliations_related_type _ id "department" _) as [r2 |]; [| discriminate].
      destruct (get_affiliations_related_type _ id "group" _) as [r3 |]; [| discriminate].
      destruct (get_authors_by_affiliation _ id _) as [r4 |]; [| discriminate].
      simpl. unfold model_validate. simpl.
      rewrite dump_validate_id by tier_keys_tac. tiers_tac.
    + rewrite get_affiliations_unfold, D1, D2, D3, D4. unfold tier.
      destruct (get_affiliations_related_type _ id "group" _) as [r3 |]; [| discriminate].
      destruct (get_authors_by_affiliation _ id _) as [r4 |]; [| discriminate].
      simpl. unfold model_validate. simpl.
      rewrite dump_validate_id by tier_keys_tac. tiers_tac.
    + rewrite get_affiliations_unfold, G1, G2, G3, G4. unfold tier.
      destruct (get_authors_by_affiliation _ id _) as [r4 |]; [| discriminate].
      simpl. unfold model_validate. simpl.
      rewrite dump_validate_id by tier_keys_tac. tiers_tac.
    + rewrite (get_affiliations_no_tier self id typ Hun).
      unfold hierarchy_tags in Hun. simpl in Hun.
      intros [= <-].
      split; [tier_iff_tac |]; split; [tier_iff_tac |];
      split; [tier_iff_tac |]; split; [tier_iff_tac |];
      split; [tier_keys_tac |]; split; intros ->; exfalso; set_solver.
Qed.

(** ** The enrichment on one object *)

Lemma bind_run {A B} (m : M A) (f : A → M B) (h : gmap loc AffiliationSearch) :
  (m ≫= f) h = match m h with
               | (Ok a, h') => f a h'
               | (Err e, h') => (Err e, h')
               end.
Proof. reflexivity. Qed.

Lemma getattr_run {A} (obj : loc) (field : AffiliationSearch → A)
    (h : gmap loc AffiliationSearch) (o : AffiliationSearch) :
  h !! obj = Some o → getattr obj field h = (Ok (field o), h).
Proof. intros H. unfold getattr. by rewrite H. Qed.

Lemma setattr_run (obj : loc) (set : AffiliationSearch → AffiliationSearch)
    (h : gmap loc AffiliationSearch) (o : AffiliationSearch) :
  h !! obj = Some o → setattr obj set h = (Ok (), <[obj := set o]> h).
Proof. intros H. unfold setattr. by rewrite H. Qed.

Lemma update_affiliation_search_run (self : AffiliationService) (obj : loc)
    (h : gmap loc AffiliationSearch) (o : AffiliationSearch) :
  h !! obj = Some o →
  update_affiliation_search self obj h =
    (match fst (enrich self o) with Ok _ => Ok obj | Err e => Err e end,
     <[obj := snd (enrich self o)]> h).
Proof.
  intros Ho. unfold update_affiliation_search, enrich.
  rewrite bind_run, (getattr_run _ _ _ _ Ho).
  rewrite bind_run, (getattr_run _ _ _ _ Ho).
  rewrite bind_run. unfold lift at 1.
  destruct (index0 (types o)) as [t0 | e] eqn:Et; simpl;
    [| by rewrite insert_id].
  rewrite bind_run. unfold lift at 1.
  destruct (upside_relations _ _ _) as [[affs lg] | e]; simpl;
    [| by rewrite insert_id].
  rewrite bind_run, (setattr_run _ _ _ _ Ho).
  pose proof (lookup_insert_eq h obj (set_affiliations affs o)) as H1.
  rewrite bind_run.
  assert (Hv : (if truthy lg then mret lg else getattr obj logo)
                 (<[obj := set_affiliations affs o]> h)
               = (Ok (if truthy lg then lg else logo o),
                  <[obj := set_affiliations affs o]> h)).
  { destruct (truthy lg); [reflexivity |].
    by rewrite (getattr_run _ _ _ _ H1). }
  rewrite Hv. clear Hv.
  rewrite bind_run, (setattr_run _ _ _ _ H1), insert_insert_eq.
  clear H1.
  set (o1 := set_logo (if truthy lg then lg else logo o)
               (set_affiliations affs o)).
  pose proof (lookup_insert_eq h obj o1) as H1.
  rewrite bind_run, (getattr_run _ _ _ _ H1).
  rewrite bind_run, (getattr_run _ _ _ _ H1).
  change (types o1) with (types o). change (id o1) with (id o).
  rewrite Et, bind_run. unfold lift at 1.
  rewrite bind_run. unfold lift at 1.
  destruct (count_papers _ _ _) as [n | e]; simpl; [| reflexivity].
  rewrite bind_run, (setattr_run _ _ _ _ H1), insert_insert_eq.
  clear H1.
  pose proof (lookup_insert_eq h obj (set_products_count n o1)) as H2.
  rewrite bind_run, (getattr_run _ _ _ _ H2).
  change (id (set_products_count n o1)) with (id o).
  rewrite bind_run. unfold lift at 1.
  destruct (get_by_id _ _) as [c | e]; simpl; [| reflexivity].
  rewrite bind_run, (setattr_run _ _ _ _ H2), insert_insert_eq.
  reflexivity.
Qed.

Lemma enrich_ok (self : AffiliationService) (o : AffiliationSearch) :
  is_ok (enrich self o).1 = calls_succeed self o.
Proof.
  unfold enrich, calls_succeed.
  destruct (index0 (types o)) as [t0 |]; [| reflexivity].
  destruct (upside_relations _ _ _) as [[affs lg] |]; [| reflexivity].
  destruct (count_papers _ _ _); [| reflexivity].
  destruct (get_by_id _ _); reflexivity.
Qed.

Lemma enrich_frame (self : AffiliationService) (o : AffiliationSearch) :
  id (enrich self o).2 = id o
  ∧ types (enrich self o).2 = types o
  ∧ relations (enrich self o).2 = relations o.
Proof.
  unfold enrich.
  destruct (index0 (types o)) as [t0 |]; [| done].
  destruct (upside_relations _ _ _) as [[affs lg] |]; [| done].
  destruct (count_papers _ _ _); [| done].
  destruct (get_by_id _ _); done.
Qed.

Lemma enrich_idempotent (self : AffiliationService) (o : AffiliationSearch) :
  enrich self (enrich self o).2 = enrich self o.
Proof.
  destruct (enrich_frame self o) as (Hid & Hty & Hrel).
  unfold enrich at 1. rewrite Hid, Hty, Hrel. revert Hid Hty Hrel.
  unfold enrich.
  destruct (index0 (types o)) as [t0 |]; [| done].
  destruct (upside_relations _ _ _) as [[affs lg] |]; [| done].
  destruct (count_papers _ _ _) as [n |];
    [| intros _ _ _; simpl; destruct (truthy lg); reflexivity].
  destruct (get_by_id _ _) as [c |];
    intros _ _ _; simpl; destruct (truthy lg); reflexivity.
Qed.

Lemma update_unallocated (self : AffiliationService) (obj : loc)
    (h : gmap loc AffiliationSearch) :
  h !! obj = None →
  update_affiliation_search self obj h = (Err Unallocated, h).
Proof.
  intros Ho. unfold update_affiliation_search.
  rewrite bind_run. unfold getattr at 1. by rewrite Ho.
Qed.

(** C4: the enrichment is idempotent: run on the object it returned, with
    the repositories unchanged, it gives the same outcome and leaves the
    same object (same affiliations, logo, products_count and
    citations_count), also when a run raises. *)
Theorem update_affiliation_search_idempotent (self : AffiliationService)
    (obj : loc) (h : gmap loc AffiliationSearch) :
  (o ← update_affiliation_search self obj;
   update_affiliation_search self o) h
  = update_affiliation_search self obj h
  ∧ update_affiliation_search self obj
      (update_affiliation_search self obj h).2
    = update_affiliation_search self obj h.
Proof.
  destruct (h !! obj) as [o |] eqn:Ho.
  - assert (Hagain :
      update_affiliation_search self obj (<[obj := (enrich self o).2]> h)
      = update_affiliation_search self obj h).
    { rewrite (update_affiliation_search_run self obj _ (enrich self o).2)
        by apply lookup_insert_eq.
      rewrite (update_affiliation_search_run self obj h o Ho).
      by rewrite enrich_idempotent, insert_insert_eq. }
    split.
    + rewrite bind_run.
      rewrite (update_affiliation_search_run self obj h o Ho) at 1.
      destruct (enrich self o).1 eqn:E.
      * exact Hagain.
      * rewrite (update_affiliation_search_run self obj h o Ho).
        by rewrite E.
    + rewrite (update_affiliation_search_run self obj h o Ho) at 1.
      exact Hagain.
  - rewrite bind_run, (update_unallocated self obj h Ho). simpl.
    split; [reflexivity | apply update_unallocated, Ho].
Qed.

Lemma enrich_success (self : AffiliationService) (o : AffiliationSearch)
    (t0 : TypeEntry) (ts : list TypeEntry) (affs : list Relation)
    (lg : option string) (n : Z) (c : AffiliationCalculations) :
  types o = t0 :: ts →
  upside_relations (repository self)
    (rel_model_dump <$> relations o) (type_ t0) = Ok (affs, lg) →
  count_papers (work_repository self) (id o) (type_ t0) = Ok n →
  get_by_id (affiliation_calculations_repository self) (id o) = Ok c →
  enrich self o =
    (Ok (),
     {| id := id o; types := types o; relations := relations o;
        affiliations := affs;
        logo := if truthy lg then lg else logo o;
        products_count := n;
        citations_count := calc_citations_count c |}).
Proof.
  intros Ht Hu Hn Hc.
  assert (Hi : index0 (types o) = Ok t0) by (by rewrite Ht).
  unfold enrich. rewrite Hi, Hu, Hn, Hc. reflexivity.
Qed.

(** C2: when the collaborator calls return, the enrichment returns, the
    resolved parent list is stored in [affiliations], and [logo] is
    overwritten only by a non-empty logo of the resolver: with no logo
    ([None] or the empty string) the previous logo stays. *)
Theorem update_affiliation_search_logo (self : AffiliationService)
    (obj : loc) (h : gmap loc AffiliationSearch) (o : AffiliationSearch)
    (t0 : TypeEntry) (ts : list TypeEntry) (affs : list Relation)
    (lg : option string) (n : Z) (c : AffiliationCalculations) :
  h !! obj = Some o →
  types o = t0 :: ts →
  upside_relations (repository self)
    (rel_model_dump <$> relations o) (type_ t0) = Ok (affs, lg) →
  count_papers (work_repository self) (id o) (type_ t0) = Ok n →
  get_by_id (affiliation_calculations_repository self) (id o) = Ok c →
  ∃ o', update_affiliation_search self obj h = (Ok obj, <[obj := o']> h)
        ∧ affiliations o' = affs
        ∧ relations o' = relations o
        ∧ (truthy lg = true → logo o' = lg)
        ∧ (lg = None ∨ lg = Some "" → logo o' = logo o).
Proof.
  intros Ho Ht Hu Hn Hc.
  rewrite (update_affiliation_search_run self obj h o Ho).
  rewrite (enrich_success self o t0 ts affs lg n c Ht Hu Hn Hc). simpl.
  eexists. split; [reflexivity |]. simpl.
  repeat split.
  - intros ->. reflexivity.
  - intros [-> | ->]; reflexivity.
Qed.

(** C3 (as amended): [citations_count] is set to the citations_count of
    the record that the lookup by id returns; when the lookup finds no
    record, or fails otherwise, the enrichment raises that failure and
    sets no default. *)
Theorem update_affiliation_search_citations (self : AffiliationService)
    (obj : loc) (h : gmap loc AffiliationSearch) (o : AffiliationSearch)
    (t0 : TypeEntry) (ts : list TypeEntry) (affs : list Relation)
    (lg : option string) (n : Z) :
  h !! obj = Some o →
  types o = t0 :: ts →
  upside_relations (repository self)
    (rel_model_dump <$> relations o) (type_ t0) = Ok (affs, lg) →
  count_papers (work_repository self) (id o) (type_ t0) = Ok n →
  (∀ c, get_by_id (affiliation_calculations_repository self) (id o) = Ok c →
        ∃ o', update_affiliation_search self obj h
              = (Ok obj, <[obj := o']> h)
              ∧ citations_count o' = calc_citations_count c)
  ∧ (∀ e, get_by_id (affiliation_calculations_repository self) (id o)
          = Err e →
          ∃ o', update_affiliation_search self obj h
                = (Err e, <[obj := o']> h)
                ∧ citations_count o' = citations_count o).
Proof.
  intros Ho Ht Hu Hn. split.
  - intros c Hc.
    rewrite (update_affiliation_search_run self obj h o Ho).
    rewrite (enrich_success self o t0 ts affs lg n c Ht Hu Hn Hc). simpl.
    eexists. split; reflexivity.
  - intros e He.
    rewrite (update_affiliation_search_run self obj h o Ho).
    assert (Hi : index0 (types o) = Ok t0) by (by rewrite Ht).
    unfold enrich. rewrite Hi, Hu, Hn, He. simpl.
    eexists. split; reflexivity.
Qed.

(** C8: with a non-empty [types] the access [types[0].type] is defined:
    the enrichment returns when the three collaborator calls do, and when
    it raises, the exception is one that a collaborator raised. With an
    empty [types] there is no guard: the access raises [IndexError] before
    any collaborator is called, and the object is left as it was. *)
Theorem update_affiliation_search_types (self : AffiliationService)
    (obj : loc) (h : gmap loc AffiliationSearch) (o : AffiliationSearch) :
  h !! obj = Some o →
  (∀ t0 ts, types o = t0 :: ts →
     index0 (types o) = Ok t0
     ∧ (is_ok (upside_relations (repository self)
                 (rel_model_dump <$> relations o) (type_ t0)) = true →
        is_ok (count_papers (work_repository self) (id o) (type_ t0)) = true →
        is_ok (get_by_id (affiliation_calculations_repository self) (id o))
          = true →
        (update_affiliation_search self obj h).1 = Ok obj)
     ∧ (∀ e, (update_affiliation_search self obj h).1 = Err e →
          upside_relations (repository self)
            (rel_model_dump <$> relations o) (type_ t0) = Err e
          ∨ count_papers (work_repository self) (id o) (type_ t0) = Err e
          ∨ get_by_id (affiliation_calculations_repository self) (id o)
            = Err e))
  ∧ (types o = [] →
     update_affiliation_search self obj h = (Err IndexError, h)).
Proof.
  intros Ho. rewrite (update_affiliation_search_run self obj h o Ho).
  split.
  - intros t0 ts Ht.
    assert (Hi : index0 (types o) = Ok t0) by (by rewrite Ht).
    unfold enrich. rewrite Hi.
    split; [reflexivity |].
    destruct (upside_relations _ _ _) as [[affs lg] | e1]; simpl.
    + destruct (count_papers _ _ _) as [n | e2]; simpl.
      * destruct (get_by_id _ _) as [c | e3]; simpl.
        -- split; [reflexivity | discriminate].
        -- split; [discriminate |]. intros e [= ->]. auto.
      * split; [discriminate |]. intros e [= ->]. auto.
    + split; [discriminate |]. intros e [= ->]. auto.
  - intros Ht.
    assert (Hi : index0 (types o) = Err IndexError) by (by rewrite Ht).
    unfold enrich. rewrite Hi. simpl. by rewrite insert_id.
Qed.

(** C10: the enrichment works on the object it is given and returns that
    same reference; in the heap only that object changes, and of that
    object the id, the types and the relations stay as they were: the
    resolved parents go to [affiliations], not to [relations]. *)
Theorem update_affiliation_search_frame (self : AffiliationService)
    (obj : loc) (h : gmap loc AffiliationSearch) (o : AffiliationSearch) :
  h !! obj = Some o →
  ∃ o', (update_affiliation_search self obj h).2 = <[obj := o']> h
        ∧ id o' = id o
        ∧ types o' = types o
        ∧ relations o' = relations o
        ∧ (∀ r, (update_affiliation_search self obj h).1 = Ok r → r = obj)
        ∧ (calls_succeed self o = true →
           (update_affiliation_search self obj h).1 = Ok obj)
        ∧ (∀ l, l ≠ obj →
           (update_affiliation_search self obj h).2 !! l = h !! l).
Proof.
  intros Ho. rewrite (update_affiliation_search_run self obj h o Ho). simpl.
  destruct (enrich_frame self o) as (Hid & Hty & Hrel).
  exists (enrich self o).2. repeat split; try done.
  - intros r. destruct (enrich self o).1; congruence.
  - rewrite <- enrich_ok. destruct (enrich self o).1; [done | discriminate].
  - intros l Hl. by rewrite lookup_insert_ne.
Qed.

(** ** The page of a search *)

Lemma enrich_document_run (self : AffiliationService) (d : Affiliation)
    (h : gmap loc AffiliationSearch) :
  enrich_document self d h =
    (match (enrich self (model_validate_json d)).1 with
     | Ok _ => Ok (fresh (dom h))
     | Err e => Err e
     end,
     <[fresh (dom h) := enriched self d]> h).
Proof.
  unfold enrich_document. rewrite bind_run. unfold alloc at 1.
  rewrite (update_affiliation_search_run self _ _ (model_validate_json d))
    by apply lookup_insert_eq.
  by rewrite insert_insert_eq.
Qed.

Lemma fresh_unallocated (h : gmap loc AffiliationSearch) :
  h !! fresh (dom h) = None.
Proof. apply not_elem_of_dom, is_fresh. Qed.

Lemma mapM_cons_run {A B} (f : A → M B) (x : A) (l : list A)
    (h : gmap loc AffiliationSearch) :
  mapM f (x :: l) h =
    match f x h with
    | (Ok y, h1) =>
        match mapM f l h1 with
        | (Ok k, h2) => (Ok (y :: k), h2)
        | (Err e, h2) => (Err e, h2)
        end
    | (Err e, h1) => (Err e, h1)
    end.
Proof.
  simpl. rewrite bind_run. destruct (f x h) as [[y | e] h1]; [| reflexivity].
  rewrite bind_run. destruct (mapM f l h1) as [[k | e] h2]; reflexivity.
Qed.

Lemma enrich_page_ok (self : AffiliationService) (ds : list Affiliation) :
  Forall (λ d, calls_succeed self (model_validate_json d) = true) ds →
  ∀ h, ∃ objs h',
    mapM (enrich_document self) ds h = (Ok objs, h')
    ∧ h ⊆ h'
    ∧ Forall2 (λ l d, h' !! l = Some (enriched self d)) objs ds.
Proof.
  induction 1 as [| d ds Hd _ IH]; intros h.
  - exists [], h. repeat split; [done | constructor].
  - rewrite mapM_cons_run, enrich_document_run.
    rewrite <- enrich_ok in Hd.
    destruct (enrich self (model_validate_json d)).1; [| discriminate].
    destruct (IH (<[fresh (dom h) := enriched self d]> h))
      as (objs & h' & Hrun & Hsub & Hall).
    rewrite Hrun. exists (fresh (dom h) :: objs), h'.
    split; [reflexivity |]. split.
    + etrans; [| exact Hsub]. apply insert_subseteq, fresh_unallocated.
    + constructor; [| exact Hall].
      eapply lookup_weaken; [apply lookup_insert_eq | exact Hsub].
Qed.

Lemma enrich_page_fails (self : AffiliationService) (ds : list Affiliation)
    (d : Affiliation) :
  d ∈ ds →
  calls_succeed self (model_validate_json d) = false →
  ∀ h, ∃ e h', mapM (enrich_document self) ds h = (Err e, h').
Proof.
  intros Hin Hd. induction ds as [| d0 ds IH]; intros h.
  - by apply elem_of_nil in Hin.
  - rewrite mapM_cons_run, enrich_document_run.
    destruct (enrich self (model_validate_json d0)).1 as [[] | e0] eqn:E0.
    + apply elem_of_cons in Hin as [-> | Hin].
      * rewrite <- enrich_ok, E0 in Hd. discriminate.
      * destruct (IH Hin (<[fresh (dom h) := enriched self d0]> h))
          as (e & h' & Hrun).
        rewrite Hrun. by exists e, h'.
    + by eexists _, _.
Qed.

Lemma dump_page (h : gmap loc AffiliationSearch) (objs : list loc)
    (vs : list AffiliationSearch) :
  Forall2 (λ l v, h !! l = Some v) objs vs →
  mapM (λ o, getattr o (λ x, x)) objs h = (Ok vs, h).
Proof.
  induction 1 as [| l v objs vs Hl _ IH].
  - reflexivity.
  - rewrite mapM_cons_run, (getattr_run _ _ _ _ Hl), IH. reflexivity.
Qed.

Lemma search_run (self : AffiliationService) (params : AffiliationQueryParams)
    (h : gmap loc AffiliationSearch) (db_objs : list Affiliation) (total : Z) :
  repo_search (repository self) (keywords params) (skip params) (max params)
    (sort params) (get_search params) = Ok (db_objs, total) →
  search self params h =
    match mapM (enrich_document self) db_objs h with
    | (Ok objs, h1) =>
        match mapM (λ o, getattr o (λ x, x)) objs h1 with
        | (Ok dumped, h2) =>
            (Ok {| total_results := total; page_ := page params;
                   data := dumped; count := Z.of_nat (length objs) |}, h2)
        | (Err e, h2) => (Err e, h2)
        end
    | (Err e, h1) => (Err e, h1)
    end.
Proof.
  intros Hs. unfold search. rewrite bind_run. unfold lift at 1.
  rewrite Hs. rewrite bind_run.
  change (λ d : Affiliation,
            alloc (model_validate_json d)
            ≫= λ o, update_affiliation_search self o)
    with (enrich_document self).
  destruct (mapM (enrich_document self) db_objs h) as [[objs | e] h1];
    [| reflexivity].
  rewrite bind_run.
  destruct (mapM (M := M) (λ o, getattr o (λ x, x)) objs h1)
    as [[dumped | e] h2]; reflexivity.
Qed.

(** The paged store keeps the contract that [search_count] asks of the
    store: its page has at most [limit] records. *)
Lemma paged_search_limit (matches : list Affiliation) (skip limit : Z)
    (db_objs : list Affiliation) (total : Z) :
  0 ≤ limit →
  paged_search matches skip limit = Ok (db_objs, total) →
  Z.of_nat (length db_objs) ≤ limit ∧ total = Z.of_nat (length matches).
Proof.
  intros Hlim [= <- <-]. split; [| reflexivity].
  rewrite length_take. lia.
Qed.

(** C5: when the store returns a page and the enrichment of its records
    returns, the response carries the enriched page, [count] is the length
    of [data], which is the number of records of the page and so at most
    the limit of the request whenever the page of the store is;
    [total_results] is a field of its own, the total that the store
    reported. *)
Theorem search_count (self : AffiliationService)
    (params : AffiliationQueryParams) (h : gmap loc AffiliationSearch)
    (db_objs : list Affiliation) (total : Z) :
  repo_search (repository self) (keywords params) (skip params) (max params)
    (sort params) (get_search params) = Ok (db_objs, total) →
  Z.of_nat (length db_objs) ≤ max params →
  Forall (λ d, calls_succeed self (model_validate_json d) = true) db_objs →
  ∃ resp h', search self params h = (Ok resp, h')
             ∧ count resp = Z.of_nat (length (data resp))
             ∧ count resp ≤ max params
             ∧ data resp = enriched self <$> db_objs
             ∧ total_results resp = total
             ∧ page_ resp = page params.
Proof.
  intros Hs Hlim Hok. rewrite (search_run self params h db_objs total Hs).
  destruct (enrich_page_ok self db_objs Hok h) as (objs & h' & Hrun & _ & Hall).
  rewrite Hrun.
  rewrite (dump_page h' objs (enriched self <$> db_objs))
    by (by apply Forall2_fmap_r).
  eexists _, h'. split; [reflexivity |]. simpl.
  pose proof (Forall2_length _ _ _ Hall) as Hlen.
  rewrite length_fmap. repeat split; try done; lia.
Qed.

(** C9: when the enrichment of one record of the page raises, the whole
    search raises: no response is returned, with or without the other
    records. *)
Theorem search_fail_fast (self : AffiliationService)
    (params : AffiliationQueryParams) (h : gmap loc AffiliationSearch)
    (db_objs : list Affiliation) (total : Z) (d : Affiliation) :
  repo_search (repository self) (keywords params) (skip params) (max params)
    (sort params) (get_search params) = Ok (db_objs, total) →
  d ∈ db_objs →
  calls_succeed self (model_validate_json d) = false →
  ∃ e h', search self params h = (Err e, h').
Proof.
  intros Hs Hin Hd. rewrite (search_run self params h db_objs total Hs).
  destruct (enrich_page_fails self db_objs d Hin Hd h) as (e & h' & Hrun).
  rewrite Hrun. by exists e, h'.
Qed.

Lemma get_affiliations_tiers_witness :
  is_ok (get_affiliations (sample_service []) "I" (Some "institution")) = true
  ∧ (∀ d, get_affiliations (sample_service []) "I" (Some "institution")
          = Ok d →
          dom d = {["faculties"; "departments"; "groups"]})
  ∧ (∀ d, get_affiliations (sample_service []) "G" (Some "group") = Ok d →
          dom d = {["authors"]}).
Proof.
  destruct (get_affiliations_tiers (sample_service []) "I"
              (Some "institution")) as [Hok Htab].
  destruct (get_affiliations_tiers (sample_service []) "G"
              (Some "group")) as [_ Hgrp].
  split; [| split].
  - apply Hok; intros; reflexivity.
  - intros d Hd. destruct (Htab d Hd) as (_ & _ & _ & _ & _ & Hi & _).
    apply Hi. reflexivity.
  - intros d Hd. destruct (Hgrp d Hd) as (_ & _ & _ & _ & _ & _ & Hg).
    apply Hg. reflexivity.
Defined.

Lemma get_affiliations_unrecognized_witness :
  get_affiliations (sample_service []) "I" None = Ok ∅
  ∧ get_affiliations (sample_service []) "I" (Some "Institution") = Ok ∅.
Proof.
  split; apply get_affiliations_unrecognized;
    apply (bool_decide_unpack _); vm_compute; exact I.
Defined.

Lemma update_affiliation_search_logo_witness :
  ∃ o', update_affiliation_search (sample_service []) 1%positive
          (sample_heap department_B)
        = (Ok 1%positive, <[1%positive := o']> (sample_heap department_B))
        ∧ affiliations o' = []
        ∧ logo o' = Some "old.png".
Proof.
  destruct (update_affiliation_search_logo (sample_service []) 1%positive
              (sample_heap department_B) (model_validate_json department_B)
              {| type_ := "department" |} [] [] None 7
              {| calc_citations_count := 12 |}
              eq_refl eq_refl eq_refl eq_refl eq_refl)
    as (o' & Hrun & Haff & _ & _ & Hlogo).
  exists o'. split; [exact Hrun |]. split; [exact Haff |].
  apply Hlogo. left. reflexivity.
Defined.

Lemma update_affiliation_search_citations_witness :
  (∃ o', update_affiliation_search (sample_service []) 1%positive
           (sample_heap department_B)
         = (Ok 1%positive, <[1%positive := o']> (sample_heap department_B))
         ∧ citations_count o' = 12)
  ∧ (∃ o', update_affiliation_search (sample_service []) 1%positive
             (sample_heap group_G)
           = (Err NotFound, <[1%positive := o']> (sample_heap group_G))
           ∧ citations_count o' = 0).
Proof.
  split.
  - destruct (update_affiliation_search_citations (sample_service [])
                1%positive (sample_heap department_B)
                (model_validate_json department_B)
                {| type_ := "department" |} [] [] None 7
                eq_refl eq_refl eq_refl eq_refl) as [Hfound _].
    exact (Hfound {| calc_citations_count := 12 |} eq_refl).
  - destruct (update_affiliation_search_citations (sample_service [])
                1%positive (sample_heap group_G)
                (model_validate_json group_G)
                {| type_ := "group" |} [] [] None 7
                eq_refl eq_refl eq_refl eq_refl) as [_ Hmissing].
    exact (Hmissing NotFound eq_refl).
Defined.

(** C3 (as stated) fails: the group "G" has no document in the
    calculations collection, the lookup raises [NotFound], and so does the
    enrichment: it does not return with a citations_count of 0. *)
Lemma update_affiliation_search_no_citation_default :
  get_by_id (affiliation_calculations_repository (sample_service [])) "G"
    = Err NotFound
  ∧ (update_affiliation_search (sample_service []) 1%positive
       (sample_heap group_G)).1 = Err NotFound
  ∧ ¬ (∃ h' o', update_affiliation_search (sample_service []) 1%positive
                  (sample_heap group_G) = (Ok 1%positive, h')
                ∧ h' !! 1%positive = Some o'
                ∧ citations_count o' = 0).
Proof.
  assert (E : (update_affiliation_search (sample_service []) 1%positive
                 (sample_heap group_G)).1 = Err NotFound)
    by (vm_compute; reflexivity).
  split; [reflexivity |]. split; [exact E |].
  intros (h' & o' & Hrun & _). rewrite Hrun in E. discriminate.
Qed.

Lemma search_count_witness :
  ∃ resp h', search (sample_service (replicate 25 department_B))
               sample_params ∅ = (Ok resp, h')
             ∧ count resp = 10
             ∧ length (data resp) = 10%nat
             ∧ total_results resp = 25.
Proof.
  destruct (search_count (sample_service (replicate 25 department_B))
              sample_params ∅ (replicate 10 department_B) 25)
    as (resp & h' & Hrun & Hcount & _ & Hdata & Htotal & _).
  - reflexivity.
  - simpl. lia.
  - repeat constructor.
  - exists resp, h'. split; [exact Hrun |].
    assert (Hlen : length (data resp) = 10%nat)
      by (rewrite Hdata; reflexivity).
    split; [| split; [exact Hlen | exact Htotal]].
    rewrite Hcount, Hlen. reflexivity.
Defined.

Lemma search_fail_fast_witness :
  ∃ e h', search (sample_service [department_B; group_G; department_B])
            sample_params ∅ = (Err e, h').
Proof.
  apply (search_fail_fast
           (sample_service [department_B; group_G; department_B])
           sample_params ∅ [department_B; group_G; department_B] 3 group_G).
  - reflexivity.
  - apply elem_of_cons. right. apply elem_of_cons. left. reflexivity.
  - reflexivity.
Defined.

Lemma update_affiliation_search_types_witness :
  (update_affiliation_search (sample_service []) 1%positive
     (sample_heap department_B)).1 = Ok 1%positive
  ∧ update_affiliation_search (sample_service []) 1%positive
      (sample_heap untyped_U) = (Err IndexError, sample_heap untyped_U).
Proof.
  split.
  - destruct (update_affiliation_search_types (sample_service []) 1%positive
                (sample_heap department_B) (model_validate_json department_B)
                eq_refl) as [Hdef _].
    destruct (Hdef {| type_ := "department" |} [] eq_refl) as (_ & Hret & _).
    apply Hret; reflexivity.
  - destruct (update_affiliation_search_types (sample_service []) 1%positive
                (sample_heap untyped_U) (model_validate_json untyped_U)
                eq_refl) as [_ Hempty].
    apply Hempty. reflexivity.
Defined.

Lemma update_affiliation_search_frame_witness :
  ∃ o', (update_affiliation_search (sample_service []) 1%positive
           (sample_heap department_B)).2
        = <[1%positive := o']> (sample_heap department_B)
        ∧ id o' = "B"
        ∧ types o' = [ {| type_ := "department" |} ]
        ∧ relations o' = [].
Proof.
  destruct (update_affiliation_search_frame (sample_service []) 1%positive
              (sample_heap department_B) (model_validate_json department_B)
              eq_refl) as (o' & Hheap & Hid & Hty & Hrel & _).
  exists o'. split; [exact Hheap |]. split; [exact Hid |].
  split; [exact Hty | exact Hrel].
Defined.

(** ** The class body of [Settings] and its tables *)

Lemma first_missing_spec (e : gmap string (option string))
    (ks : list string) (k : string) :
  Settings.first_missing e ks = Some k ↔
  ∃ pre post, ks = (pre ++ k :: post)%list
              ∧ e !! k = None
              ∧ ∀ k', k' ∈ pre → is_Some (e !! k').
Proof.
  induction ks as [| k0 ks IH]; simpl.
  - split; [discriminate |]. intros (pre & post & H & _).
    by destruct pre.
  - destruct (e !! k0) as [v0 |] eqn:E0.
    + rewrite IH. split.
      * intros (pre & post & -> & Hk & Hpre).
        exists (k0 :: pre), post. split; [reflexivity |].
        split; [exact Hk |]. intros k' [-> | Hin]%elem_of_cons; eauto.
      * intros (pre & post & Heq & Hk & Hpre).
        destruct pre as [| p pre]; simpl in Heq.
        -- injection Heq as -> _. congruence.
        -- injection Heq as -> ->. exists pre, post.
           split; [reflexivity |]. split; [exact Hk |].
           intros k' Hin. apply Hpre. by right.
    + split.
      * intros [= <-]. exists [], ks. split; [reflexivity |].
        split; [exact E0 |]. intros k' Hin. by apply elem_of_nil in Hin.
      * intros (pre & post & Heq & Hk & Hpre).
        destruct pre as [| p pre]; simpl in Heq.
        -- by injection Heq as -> _.
        -- injection Heq as -> _.
           destruct (Hpre p) as [x Hx]; [by left | congruence].
Qed.

Lemma first_missing_none (e : gmap string (option string))
    (ks : list string) :
  Settings.first_missing e ks = None ↔ ∀ k, k ∈ ks → is_Some (e !! k).
Proof.
  induction ks as [| k0 ks IH]; simpl.
  - split; [| done]. intros _ k Hin. by apply elem_of_nil in Hin.
  - destruct (e !! k0) as [v0 |] eqn:E0.
    + rewrite IH. split.
      * intros H k [-> | Hin]%elem_of_cons; eauto.
      * intros H k Hin. apply H. by right.
    + split; [discriminate |]. intros H.
      destruct (H k0) as [x Hx]; [by left | congruence].
Qed.

Lemma class_body_first_missing (e : gmap string (option string)) :
  match Settings.first_missing e Settings.keys with
  | Some k => Settings.class_body e = inl (Settings.KeyError k)
  | None => ∃ d, Settings.class_body e = inr d
  end.
Proof.
  unfold Settings.class_body, Settings.keys, Settings.getitem. simpl.
  repeat match goal with
         | |- context [e !! ?k] => destruct (e !! k); simpl
         end; eauto.
Qed.

(** X1: the class body raises [KeyError] for a key exactly when that key is
    the first one, in the order of the assignments, that [env] lacks. *)
Theorem settings_class_body_key_error (e : gmap string (option string))
    (k : string) :
  Settings.class_body e = inl (Settings.KeyError k) ↔
  ∃ pre post, Settings.keys = (pre ++ k :: post)%list
              ∧ e !! k = None
              ∧ ∀ k', k' ∈ pre → is_Some (e !! k').
Proof.
  rewrite <- first_missing_spec.
  pose proof (class_body_first_missing e) as H.
  destruct (Settings.first_missing e Settings.keys) as [k0 |].
  - rewrite H. split; congruence.
  - destruct H as [d Hd]. rewrite Hd. split; discriminate.
Qed.

(** X2: the class body returns exactly when [env] holds all sixteen keys. *)
Theorem settings_class_body_complete (e : gmap string (option string)) :
  (∃ d, Settings.class_body e = inr d) ↔
  ∀ k, k ∈ Settings.keys → is_Some (e !! k).
Proof.
  rewrite <- first_missing_none.
  pose proof (class_body_first_missing e) as H.
  destruct (Settings.first_missing e Settings.keys) as [k0 |].
  - rewrite H. split; [intros [d Hd]; discriminate | discriminate].
  - split; [reflexivity | intros _; exact H].
Qed.

(** X3: when ENVIRONMENT is neither "dev" nor "prod" (or is unset), no file
    is read and the class body raises [KeyError] for "APP_NAME". *)
Theorem settings_environment_unset (environment : option string)
    (dotenv_values : string → gmap string (option string)) :
  environment ≠ Some "dev" →
  environment ≠ Some "prod" →
  Settings.env environment dotenv_values = ∅
  ∧ Settings.class_body (Settings.env environment dotenv_values)
    = inl (Settings.KeyError "APP_NAME").
Proof.
  intros Hdev Hprod. unfold Settings.env.
  rewrite !bool_decide_eq_false_2 by done.
  split; reflexivity.
Qed.

Lemma settings_environment_unset_witness :
  Settings.class_body
    (Settings.env None (λ _, {[ "APP_NAME" := Some "quyca" ]}))
  = inl (Settings.KeyError "APP_NAME")
  ∧ Settings.class_body
      (Settings.env (Some "test") (λ _, {[ "APP_NAME" := Some "quyca" ]}))
    = inl (Settings.KeyError "APP_NAME").
Proof.
  split.
  - apply settings_environment_unset; discriminate.
  - apply settings_environment_unset; discriminate.
Defined.

Lemma dict_display_snoc {V} (items : list (string * V)) (k : string) (v : V) :
  dict_display (items ++ [(k, v)])%list
  = <[k := v]> (dict_display items).
Proof. unfold dict_display. by rewrite fold_left_app. Qed.

(** A dict display without a repeated key holds exactly its items. *)
Lemma dict_display_lookup {V} (items : list (string * V)) (k : string) (v : V) :
  NoDup items.*1 →
  dict_display items !! k = Some v ↔ (k, v) ∈ items.
Proof.
  induction items as [| [k0 v0] items IH] using rev_ind; intros Hnd.
  - unfold dict_display. simpl. rewrite lookup_empty.
    split; [discriminate | intros H; by apply elem_of_nil in H].
  - rewrite fmap_app in Hnd. apply NoDup_app in Hnd as (Hnd & Hfresh & _).
    rewrite dict_display_snoc, elem_of_app, list_elem_of_singleton.
    destruct (decide (k = k0)) as [-> | Hne].
    + rewrite lookup_insert_eq. split.
      * intros [= ->]. by right.
      * intros [Hin | [= ->]]; [| reflexivity].
        exfalso. apply (Hfresh k0).
        -- apply list_elem_of_fmap. by exists (k0, v).
        -- simpl. by left.
    + rewrite lookup_insert_ne by done. rewrite (IH Hnd). split.
      * by left.
      * intros [Hin | [= -> ->]]; [exact Hin | done].
Qed.

Lemma TYPES_keys_distinct : NoDup Settings.TYPES_items.*1.
Proof. apply (bool_decide_unpack _). vm_compute. exact I. Qed.

Lemma EXTERNAL_IDS_MAP_keys_distinct : NoDup Settings.EXTERNAL_IDS_MAP_items.*1.
Proof. apply (bool_decide_unpack _). vm_compute. exact I. Qed.

(** X4: no key of the [TYPES] display is written twice: the dict holds
    exactly the 24 items of the display. *)
Theorem TYPES_holds_its_items (k v : string) :
  (Settings.TYPES !! k = Some v ↔ (k, v) ∈ Settings.TYPES_items)
  ∧ size Settings.TYPES = length Settings.TYPES_items.
Proof.
  split.
  - apply dict_display_lookup, TYPES_keys_distinct.
  - vm_compute. reflexivity.
Qed.

(** X5: the labels of [TYPES] are stable: a label that is itself a key of the
    table is mapped to itself, so translating twice changes nothing. *)
Theorem TYPES_labels_stable (k v v' : string) :
  Settings.TYPES !! k = Some v →
  Settings.TYPES !! v = Some v' →
  v' = v.
Proof.
  intros Hk Hv.
  apply (dict_display_lookup _ _ _ TYPES_keys_distinct) in Hk.
  unfold Settings.TYPES_items in Hk.
  repeat (apply elem_of_cons in Hk as [[= -> ->] | Hk];
          [vm_compute in Hv; congruence |]).
  by apply elem_of_nil in Hk.
Qed.

Lemma TYPES_labels_stable_witness :
  Settings.TYPES !! "article" = Some "Artículo"
  ∧ Settings.TYPES !! "Artículo" = Some "Artículo".
Proof.
  assert (H1 : Settings.TYPES !! "article" = Some "Artículo")
    by (vm_compute; reflexivity).
  assert (H2 : Settings.TYPES !! "Artículo" = Some "Artículo")
    by (vm_compute; reflexivity).
  pose proof (TYPES_labels_stable "article" "Artículo" "Artículo" H1 H2)
    as Hstable.
  split; [exact H1 |]. destruct Hstable. exact H2.
Defined.

(** X6: every URL template of [EXTERNAL_IDS_MAP] is empty or holds the
    placeholder "{id}" exactly once. *)
Theorem EXTERNAL_IDS_MAP_placeholder (source template : string) :
  Settings.EXTERNAL_IDS_MAP !! source = Some template →
  template = "" ∨ Settings.occurrences "{id}" template = 1%nat.
Proof.
  intros H.
  apply (dict_display_lookup _ _ _ EXTERNAL_IDS_MAP_keys_distinct) in H.
  unfold Settings.EXTERNAL_IDS_MAP_items in H.
  repeat (apply elem_of_cons in H as [[= -> ->] | H];
          [first [by left | right; vm_compute; reflexivity] |]).
  by apply elem_of_nil in H.
Qed.

Lemma EXTERNAL_IDS_MAP_placeholder_witness :
  Settings.EXTERNAL_IDS_MAP !! "doi" = Some "https://doi.org/{id}"
  ∧ Settings.occurrences "{id}" "https://doi.org/{id}" = 1%nat.
Proof.
  assert (H : Settings.EXTERNAL_IDS_MAP !! "doi" = Some "https://doi.org/{id}")
    by (vm_compute; reflexivity).
  split; [exact H |].
  destruct (EXTERNAL_IDS_MAP_placeholder "doi" "https://doi.org/{id}" H)
    as [Hempty | Hone]; [discriminate | exact Hone].
Defined.

(** X7: the [institutions] vocabulary has no repeated entry and is closed
    under lowercasing: the lowercase spelling of every member is a
    member. *)
Theorem institutions_lower_closed (s : string) :
  NoDup Config.institutions
  ∧ (s ∈ Config.institutions → lower s ∈ Config.institutions).
Proof.
  split.
  - apply (bool_decide_unpack _). vm_compute. exact I.
  - intros Hs. unfold Config.institutions in Hs.
    repeat (apply elem_of_cons in Hs as [-> | Hs];
            [apply in_institutions; vm_compute; reflexivity |]).
    by apply elem_of_nil in Hs.
Qed.

(** ** The table of plots *)

Lemma plot_mappings_keys_distinct : NoDup plot_mappings_items.*1.
Proof. apply (bool_decide_unpack _). vm_compute. exact I. Qed.

(** X8: no key of the [plot_mappings] display is written twice: the table
    holds exactly the 36 items of the display, none is shadowed. *)
Theorem plot_mappings_holds_its_items (k : string) (f : plot_handler) :
  (plot_mappings !! k = Some f ↔ (k, f) ∈ plot_mappings_items)
  ∧ size plot_mappings = 36%nat.
Proof.
  split.
  - apply dict_display_lookup, plot_mappings_keys_distinct.
  - vm_compute. reflexivity.
Qed.

(** X9: the plots by affiliation ("type", "citations", "products", "apc",
    "h") are registered for the tiers faculty, department and group, with
    one handler per kind whatever the tier, and for no institution tier. *)
Theorem plot_mappings_tiers (kind t1 t2 : string) :
  kind ∈ ["type"; "citations"; "products"; "apc"; "h"] →
  t1 ∈ ["faculty"; "department"; "group"] →
  t2 ∈ ["faculty"; "department"; "group"] →
  is_Some (plot_mappings !! (kind +:+ "," +:+ t1))
  ∧ plot_mappings !! (kind +:+ "," +:+ t1)
    = plot_mappings !! (kind +:+ "," +:+ t2)
  ∧ plot_mappings !! (kind +:+ ",institution") = None.
Proof.
  intros Hk H1 H2.
  repeat (apply elem_of_cons in Hk as [-> | Hk]);
    [| | | | | by apply elem_of_nil in Hk];
    (repeat (apply elem_of_cons in H1 as [-> | H1]);
     [| | | by apply elem_of_nil in H1]);
    (repeat (apply elem_of_cons in H2 as [-> | H2]);
     [| | | by apply elem_of_nil in H2]);
    (split; [vm_compute; eauto | split; vm_compute; reflexivity]).
Qed.

Lemma plot_mappings_tiers_witness :
  plot_mappings !! "citations,faculty" = plot_mappings !! "citations,group"
  ∧ plot_mappings !! "citations,institution" = None.
Proof.
  destruct (plot_mappings_tiers "citations" "faculty" "group")
    as (_ & Hsame & Hnone).
  - apply elem_of_cons. right. apply elem_of_cons. left. reflexivity.
  - apply elem_of_cons. left. reflexivity.
  - apply elem_of_cons. right. apply elem_of_cons. right.
    apply elem_of_cons. left. reflexivity.
  - split; [exact Hsame | exact Hnone].
Defined.

(** ** The detail of one affiliation *)

Lemma get_info_run (self : AffiliationInfoService) (id : string)
    (h : gmap loc AffiliationSearch) (d : Affiliation) :
  repository_get_by_id self id = Ok d →
  get_info self id h =
    (match (enrich (info_service self) (model_validate_json d)).1 with
     | Ok _ => Ok {| info_data := enriched (info_service self) d;
                     info_filters := ∅ |}
     | Err e => Err e
     end,
     <[fresh (dom h) := enriched (info_service self) d]> h).
Proof.
  intros Hd. unfold get_info. rewrite bind_run. unfold lift at 1.
  rewrite Hd. rewrite bind_run. unfold alloc at 1.
  rewrite bind_run.
  rewrite (update_affiliation_search_run _ _ _ (model_validate_json d))
    by apply lookup_insert_eq.
  rewrite insert_insert_eq. fold (enriched (info_service self) d).
  destruct (enrich (info_service self) (model_validate_json d)).1;
    [| reflexivity].
  rewrite bind_run.
  rewrite (getattr_run _ _ _ (enriched (info_service self) d))
    by apply lookup_insert_eq.
  reflexivity.
Qed.


(** X10: [get_info] returns the enriched record of the stored document, with
    empty filters, when the lookup and the collaborator calls return; the
    objects that existed before are left as they were. *)
Theorem get_info_returns (self : AffiliationInfoService) (key : string)
    (h : gmap loc AffiliationSearch) (d : Affiliation) :
  repository_get_by_id self key = Ok d →
  calls_succeed (info_service self) (model_validate_json d) = true →
  ∃ h', get_info self key h
        = (Ok {| info_data := enriched (info_service self) d;
                 info_filters := ∅ |}, h')
        ∧ h ⊆ h'
        ∧ id (enriched (info_service self) d) = doc_id d.
Proof.
  intros Hd Hok. rewrite (get_info_run self key h d Hd).
  rewrite <- enrich_ok in Hok.
  destruct (enrich (info_service self) (model_validate_json d)).1;
    [| discriminate].
  eexists. split; [reflexivity |]. split.
  - apply insert_subseteq, fresh_unallocated.
  - unfold enriched.
    by destruct (enrich_frame (info_service self) (model_validate_json d))
      as (-> & _).
Qed.



(** ** The external ids of the authors of a work *)

Section WorksProofs.
Context {X E P R : Type}.
Implicit Types (repo : PersonRepository X) (dump : X → E).
Implicit Types (a : Author E P) (w : WorkProccessed E P R).

Lemma ext_ids_no_id repo a :
  truthy (author_id a) = false → ext_ids repo a = Ok [].
Proof.
  unfold ext_ids. destruct (author_id a) as [i |]; [| reflexivity].
  by intros ->.
Qed.

Lemma ext_ids_same_id repo a a' :
  author_id a' = author_id a → ext_ids repo a' = ext_ids repo a.
Proof. unfold ext_ids. by intros ->. Qed.

Lemma update_authors_frame repo dump (authors : list (Author E P)) :
  Forall2 (λ a a', author_id a' = author_id a
                   ∧ author_other a' = author_other a)
    authors (update_authors repo dump authors).2.
Proof.
  induction authors as [| a rest IH]; simpl; [constructor |].
  destruct (ext_ids repo a) as [ids | e]; simpl.
  - destruct (update_authors repo dump rest) as [r rest']. simpl in *.
    by constructor.
  - apply Forall2_same_length_lookup_2; [reflexivity |].
    intros i x y Hx Hy. by simplify_eq.
Qed.

Lemma update_authors_ok repo dump (authors : list (Author E P)) :
  Forall (λ a, is_ok (ext_ids repo a) = true) authors →
  (update_authors repo dump authors).1 = Ok ()
  ∧ Forall2 (λ a a', ∃ ids, ext_ids repo a = Ok ids
                            ∧ author_external_ids a' = dump <$> ids)
      authors (update_authors repo dump authors).2.
Proof.
  induction 1 as [| a rest Ha _ IH]; simpl; [by split; constructor |].
  destruct (ext_ids repo a) as [ids | e] eqn:Eids; [| discriminate].
  destruct (update_authors repo dump rest) as [r rest']. simpl in *.
  destruct IH as [-> IH]. split; [reflexivity |].
  constructor; [| exact IH]. by exists ids.
Qed.

Lemma update_authors_err repo dump (authors : list (Author E P)) (e : error) :
  (update_authors repo dump authors).1 = Err e →
  ∃ i a, authors !! i = Some a
         ∧ ext_ids repo a = Err e
         ∧ Forall (λ b, is_ok (ext_ids repo b) = true) (take i authors)
         ∧ drop i (update_authors repo dump authors).2 = drop i authors.
Proof.
  induction authors as [| a rest IH]; simpl; [discriminate |].
  destruct (ext_ids repo a) as [ids | e0] eqn:Eids; simpl.
  - destruct (update_authors repo dump rest) as [r rest']. simpl in *.
    intros Hr. destruct (IH Hr) as (i & b & Hi & Hb & Hpre & Hdrop).
    exists (S i), b. simpl. repeat split; try done.
    constructor; [by rewrite Eids | exact Hpre].
  - intros [= ->]. exists 0%nat, a. simpl. repeat split; try done.
Qed.

Lemma update_authors_idempotent repo dump (authors : list (Author E P)) :
  update_authors repo dump (update_authors repo dump authors).2
  = update_authors repo dump authors.
Proof.
  induction authors as [| a rest IH]; simpl; [reflexivity |].
  destruct (ext_ids repo a) as [ids | e] eqn:Eids; simpl.
  - destruct (update_authors repo dump rest) as [r rest'] eqn:Erest.
    simpl in *.
    rewrite (ext_ids_same_id repo a (set_external_ids (dump <$> ids) a))
      by reflexivity.
    rewrite Eids, IH. reflexivity.
  - by rewrite Eids.
Qed.

(** X13: [update_author_external_ids] returns the work it was given, keeps
    the number and the order of the authors and changes nothing but
    their [external_ids], also when it raises. *)
Theorem update_author_external_ids_frame repo dump w :
  work_other (update_author_external_ids repo dump w).2 = work_other w
  ∧ Forall2 (λ a a', author_id a' = author_id a
                     ∧ author_other a' = author_other a)
      (work_authors w)
      (work_authors (update_author_external_ids repo dump w).2)
  ∧ (∀ w', (update_author_external_ids repo dump w).1 = Ok w' →
           w' = (update_author_external_ids repo dump w).2).
Proof.
  unfold update_author_external_ids.
  pose proof (update_authors_frame repo dump (work_authors w)) as Hf.
  destruct (update_authors repo dump (work_authors w)) as [r authors'].
  simpl in *. repeat split; [exact Hf |].
  intros w'. destruct r; congruence.
Qed.

(** X14: when the lookup of every author with an id returns,
    [update_author_external_ids] returns, and every author holds the
    dumps of the external ids of its person, in their order; an author
    without id (None or the empty string) holds the empty list and is
    not looked up. *)
Theorem update_author_external_ids_returns repo dump w :
  Forall (λ a, truthy (author_id a) = true →
               ∃ i p, author_id a = Some i
                      ∧ person_get_by_id repo i = Ok p)
    (work_authors w) →
  ∃ w', update_author_external_ids repo dump w = (Ok w', w')
        ∧ Forall2 (λ a a',
                     (truthy (author_id a) = false →
                      author_external_ids a' = [])
                     ∧ (∀ i p, author_id a = Some i →
                               truthy (author_id a) = true →
                               person_get_by_id repo i = Ok p →
                               author_external_ids a'
                               = dump <$> person_external_ids p))
            (work_authors w) (work_authors w').
Proof.
  intros Hall.
  assert (Hok : Forall (λ a, is_ok (ext_ids repo a) = true)
                  (work_authors w)).
  { eapply Forall_impl; [exact Hall |]. intros a Ha. simpl in Ha.
    destruct (truthy (author_id a)) eqn:Et.
    - destruct (Ha eq_refl) as (i & p & Hi & Hp).
      unfold ext_ids. rewrite Hi. rewrite Hi in Et. rewrite Et.
      by rewrite Hp.
    - by rewrite (ext_ids_no_id repo a Et). }
  destruct (update_authors_ok repo dump _ Hok) as [Hr Hids].
  unfold update_author_external_ids.
  destruct (update_authors repo dump (work_authors w)) as [r authors'].
  simpl in *. subst r. eexists. split; [reflexivity |]. simpl.
  eapply Forall2_impl; [exact Hids |].
  intros a a' (ids & Hids' & ->). split.
  - intros Et. rewrite (ext_ids_no_id repo a Et) in Hids'.
    by injection Hids' as <-.
  - intros i p Hi Et Hp. unfold ext_ids in Hids'.
    rewrite Hi in Hids'. rewrite Hi in Et. rewrite Et, Hp in Hids'.
    by injection Hids' as <-.
Qed.

(** X15: when [update_author_external_ids] raises, the exception is that of
    the lookup of one author; the authors before it were looked up and
    are updated, that author and the ones after it are left as they
    were. *)
Theorem update_author_external_ids_raises repo dump w (e : error) :
  (update_author_external_ids repo dump w).1 = Err e →
  ∃ i a, work_authors w !! i = Some a
         ∧ ext_ids repo a = Err e
         ∧ truthy (author_id a) = true
         ∧ Forall (λ b, is_ok (ext_ids repo b) = true)
             (take i (work_authors w))
         ∧ drop i (work_authors (update_author_external_ids repo dump w).2)
           = drop i (work_authors w).
Proof.
  unfold update_author_external_ids.
  pose proof (update_authors_err repo dump (work_authors w) e) as Herr.
  destruct (update_authors repo dump (work_authors w)) as [r authors'].
  simpl in *. intros Hr.
  destruct Herr as (i & a & Hi & Ha & Hpre & Hdrop).
  { destruct r; congruence. }
  exists i, a. repeat split; try done.
  destruct (truthy (author_id a)) eqn:Et; [reflexivity |].
  rewrite (ext_ids_no_id repo a Et) in Ha. discriminate.
Qed.

(** X16: [update_author_external_ids] is idempotent: run again on the work
    it left, with the same person repository, it gives the same outcome
    and the same work, also when it raises. *)
Theorem update_author_external_ids_idempotent repo dump w :
  update_author_external_ids repo dump
    (update_author_external_ids repo dump w).2
  = update_author_external_ids repo dump w.
Proof.
  unfold update_author_external_ids.
  pose proof (update_authors_idempotent repo dump (work_authors w)) as Hi.
  destruct (update_authors repo dump (work_authors w)) as [r authors'].
  simpl in *. rewrite Hi. reflexivity.
Qed.

End WorksProofs.

(** ** The research products of an affiliation *)

Lemma mapM_result_cons {A B} (f : A → result B) (x : A) (l : list A) :
  mapM f (x :: l) =
    match f x with
    | Ok y => match mapM f l with
              | Ok k => Ok (y :: k)
              | Err e => Err e
              end
    | Err e => Err e
    end.
Proof.
  simpl. destruct (f x) as [y | e]; simpl; [| reflexivity].
  destruct (mapM f l); reflexivity.
Qed.

Lemma mapM_result_ok {A B} (f : A → result B) (xs : list A) (ys : list B) :
  Forall2 (λ x y, f x = Ok y) xs ys → mapM f xs = Ok ys.
Proof.
  induction 1 as [| x y xs ys Hx _ IH]; [reflexivity |].
  by rewrite mapM_result_cons, Hx, IH.
Qed.

Lemma mapM_result_err {A B} (f : A → result B) (xs : list A) (x : A) :
  x ∈ xs → is_ok (f x) = false → is_ok (mapM f xs) = false.
Proof.
  intros Hin Hx. induction xs as [| x0 xs IH].
  - by apply elem_of_nil in Hin.
  - rewrite mapM_result_cons.
    destruct (f x0) as [y |] eqn:E0; [| reflexivity].
    apply elem_of_cons in Hin as [-> | Hin].
    + rewrite E0 in Hx. discriminate.
    + specialize (IH Hin). destruct (mapM f xs); [discriminate | reflexivity].
Qed.

Section ProductsProofs.
Context {X E P R F AF L : Type}.
Implicit Types (works_repo : WorkProductsRepository E P R F AF).
Implicit Types (repo : PersonRepository X) (dump : X → E).
Implicit Types (to_list_app : WorkProccessed E P R → result L).

(** X17: when the listing, the count and the update of every work of the page
    return, [get_research_products] returns the dumps of the updated
    works in the order of the page; [count] is the number of works of the
    page, [total_results] the count of papers under the filter of the
    listing, and [filters] the available filters of the listing. *)
Theorem get_research_products_returns works_repo repo dump to_list_app
    (id typ : string) (params : WorkQueryParams F)
    (works : list (WorkProccessed E P R)) (available : AF) (total : Z)
    (dumps : list L) :
  get_research_products_by_affiliation works_repo id typ (wq_skip params)
    (wq_max params) (wq_sort params) (get_filter params)
    = Ok (works, available) →
  count_papers_filters works_repo id typ (get_filter params) = Ok total →
  Forall2 (λ w l, ∃ w', (update_author_external_ids repo dump w).1 = Ok w'
                        ∧ to_list_app w' = Ok l) works dumps →
  ∃ resp, get_research_products works_repo repo dump to_list_app id typ
            params = Ok resp
          ∧ rp_data resp = dumps
          ∧ rp_count resp = Z.of_nat (length (rp_data resp))
          ∧ rp_count resp = Z.of_nat (length works)
          ∧ rp_total_results resp = total
          ∧ rp_filters resp = available.
Proof.
  intros Hlist Hcount Hworks. unfold get_research_products.
  rewrite Hlist. simpl. rewrite Hcount. simpl.
  rewrite (mapM_result_ok _ works dumps).
  - simpl. eexists. split; [reflexivity |]. simpl.
    by rewrite (Forall2_length _ _ _ Hworks).
  - eapply Forall2_impl; [exact Hworks |].
    intros w l (w' & Hw & Hl). by rewrite Hw.
Qed.

(** X18: [get_research_products] counts before it updates any author: when
    the count raises, its exception is raised whatever the person
    repository holds; and when the update of one work of the page raises,
    the whole listing raises. *)
Theorem get_research_products_raises works_repo repo dump to_list_app
    (id typ : string) (params : WorkQueryParams F)
    (works : list (WorkProccessed E P R)) (available : AF) :
  get_research_products_by_affiliation works_repo id typ (wq_skip params)
    (wq_max params) (wq_sort params) (get_filter params)
    = Ok (works, available) →
  (∀ e, count_papers_filters works_repo id typ (get_filter params) = Err e →
        get_research_products works_repo repo dump to_list_app id typ params
        = Err e)
  ∧ (∀ w, w ∈ works →
          is_ok (update_author_external_ids repo dump w).1 = false →
          is_ok (get_research_products works_repo repo dump to_list_app
                   id typ params) = false).
Proof.
  intros Hlist. unfold get_research_products. rewrite Hlist. simpl. split.
  - intros e He. by rewrite He.
  - intros w Hin Hw.
    destruct (count_papers_filters _ _ _ _) as [total |]; [| reflexivity].
    simpl.
    pose proof (mapM_result_err
                  (λ work, (update_author_external_ids repo dump work).1
                           ≫= to_list_app) works w Hin) as Herr.
    destruct (mapM _ works) as [data |]; [| reflexivity].
    apply Herr.
    destruct (update_author_external_ids repo dump w).1;
      [discriminate | reflexivity].
Qed.

End ProductsProofs.

(** ** Runs on the sample data *)

Lemma settings_class_body_key_error_witness :
  ∃ pre post, Settings.keys = (pre ++ "APP_VERSION" :: post)%list
              ∧ sample_env_short !! "APP_VERSION" = None
              ∧ ∀ k', k' ∈ pre → is_Some (sample_env_short !! k').
Proof.
  apply (proj1 (settings_class_body_key_error sample_env_short "APP_VERSION")).
  vm_compute. reflexivity.
Defined.

Lemma settings_class_body_complete_witness :
  ∃ d, Settings.class_body sample_env_full = inr d.
Proof.
  apply (proj2 (settings_class_body_complete sample_env_full)).
  intros k Hk. unfold Settings.keys in Hk.
  repeat (apply elem_of_cons in Hk as [-> | Hk];
          [vm_compute; eexists; reflexivity |]).
  by apply elem_of_nil in Hk.
Defined.

Lemma get_info_returns_witness :
  ∃ h', get_info (sample_info_service []) "B" ∅
        = (Ok {| info_data := enriched (sample_service []) department_B;
                 info_filters := ∅ |}, h')
        ∧ logo (enriched (sample_service []) department_B) = Some "old.png"
        ∧ citations_count (enriched (sample_service []) department_B) = 12.
Proof.
  destruct (get_info_returns (sample_info_service []) "B" ∅ department_B
              eq_refl eq_refl) as (h' & Hrun & _ & _).
  exists h'. split; [exact Hrun |]. split; reflexivity.
Defined.


Lemma update_author_external_ids_returns_witness :
  ∃ w', update_author_external_ids sample_person_repository (λ x, x)
          sample_work = (Ok w', w')
        ∧ author_external_ids <$> work_authors w'
          = [ ["orcid:0000-0001"; "scholar:abc"]; []; [] ].
Proof.
  destruct (update_author_external_ids_returns sample_person_repository
              (λ x, x) sample_work) as (w' & Hrun & _).
  - repeat constructor.
    + intros _. by eexists "P1", _.
    + discriminate.
    + discriminate.
  - exists w'. split; [exact Hrun |].
    vm_compute in Hrun. by injection Hrun as <-.
Defined.

Lemma update_author_external_ids_raises_witness :
  ∃ i a, work_authors sample_work_unknown_author !! i = Some a
         ∧ author_id a = Some "P9"
         ∧ drop i (work_authors
                     (update_author_external_ids sample_person_repository
                        (λ x, x) sample_work_unknown_author).2)
           = drop i (work_authors sample_work_unknown_author).
Proof.
  destruct (update_author_external_ids_raises sample_person_repository
              (λ x, x) sample_work_unknown_author NotFound eq_refl)
    as (i & a & Hi & Ha & _ & _ & Hdrop).
  exists i, a. split; [exact Hi |]. split; [| exact Hdrop].
  destruct i as [| [| [| i]]]; simpl in Hi; try discriminate;
    injection Hi as <-; first [reflexivity | vm_compute in Ha; discriminate].
Defined.

Lemma get_research_products_returns_witness :
  ∃ resp, get_research_products (sample_products_repository [sample_work])
            sample_person_repository (λ x, x) sample_to_list_app
            "B" "department" sample_work_params = Ok resp
          ∧ rp_data resp = [3%nat]
          ∧ rp_count resp = 1
          ∧ rp_total_results resp = 5.
Proof.
  destruct (get_research_products_returns
              (sample_products_repository [sample_work])
              sample_person_repository (λ x, x) sample_to_list_app
              "B" "department" sample_work_params [sample_work]
              ["year"; "type"] 5 [3%nat] eq_refl eq_refl)
    as (resp & Hrun & Hdata & _ & Hcount & Htotal & _).
  - repeat constructor. eexists. split; reflexivity.
  - exists resp. split; [exact Hrun |]. split; [exact Hdata |].
    split; [exact Hcount | exact Htotal].
Defined.

Lemma get_research_products_raises_witness :
  is_ok (get_research_products
           (sample_products_repository
              [sample_work; sample_work_unknown_author])
           sample_person_repository (λ x, x) sample_to_list_app
           "B" "department" sample_work_params) = false.
Proof.
  destruct (get_research_products_raises
              (sample_products_repository
                 [sample_work; sample_work_unknown_author])
              sample_person_repository (λ x, x) sample_to_list_app
              "B" "department" sample_work_params
              [sample_work; sample_work_unknown_author] ["year"; "type"]
              eq_refl) as [_ Hwork].
  apply (Hwork sample_work_unknown_author).
  - apply elem_of_cons. right. apply elem_of_cons. left. reflexivity.
  - reflexivity.
Defined.

(** ** The exports of the research products *)

Lemma mapM_result_length {A B} (f : A → result B) (xs : list A) :
  ∀ ys, mapM f xs = Ok ys → length ys = length xs.
Proof.
  induction xs as [| x xs IH]; intros ys.
  - by intros [= <-].
  - rewrite mapM_result_cons.
    destruct (f x) as [y |]; [| discriminate].
    destruct (mapM f xs) as [k |]; [| discriminate].
    intros [= <-]. simpl. by rewrite (IH k).
Qed.

Section ExportsProofs.
Context {W S D C DC Cur : Type}.
Implicit Types (csv_repo : WorkCsvRepository W) (work_repo : WorkRepository).
Implicit Types (get_cursor : AffiliationQueryParams → string → Z → Cur).

(** X19: when the listing, the conversion of every work and the count return,
    [get_research_products_json] returns the dumps in the order of the
    listing; [count] is their number, [total_products] the count of
    papers of the affiliation id and type, and the cursor is asked for
    the path of these research products with that total. *)
Theorem get_research_products_json_returns csv_repo work_repo
    (model_validate : W → result S) (update_source : S → result S)
    (model_dump : S → D) get_cursor (API_V1_STR : string)
    (id typ : string) (params : AffiliationQueryParams)
    (works : list W) (dumps : list D) (total : Z) :
  get_research_products_by_affiliation_csv csv_repo id typ
    (Some (skip params)) (Some (max params)) (Some (sort params))
    = Ok works →
  Forall2 (λ w d, ∃ s s', model_validate w = Ok s
                          ∧ update_source s = Ok s'
                          ∧ d = model_dump s') works dumps →
  count_papers work_repo id typ = Ok total →
  get_research_products_json csv_repo work_repo model_validate
    update_source model_dump get_cursor API_V1_STR id typ params
  = Ok {| js_data := dumps;
          js_total_products := total;
          js_count := Z.of_nat (length works);
          js_cursor :=
            get_cursor params
              (API_V1_STR +:+ "/affiliation/" +:+ typ +:+ "/" +:+ id
               +:+ "/research/products") total |}.
Proof.
  intros Hlist Hworks Hcount. unfold get_research_products_json.
  rewrite Hlist. simpl.
  rewrite (mapM_result_ok _ works dumps).
  - simpl. rewrite Hcount. simpl.
    by rewrite (Forall2_length _ _ _ Hworks).
  - eapply Forall2_impl; [exact Hworks |].
    intros w d (s & s' & Hs & Hs' & ->). by rewrite Hs; simpl; rewrite Hs'.
Qed.

(** X20: the total of the JSON export agrees with the enrichment: for the id
    of an affiliation and its primary type, [total_products] is the
    [products_count] that [update_affiliation_search] stores on the
    affiliation, when both read the same work repository. *)
Theorem get_research_products_json_total (self : AffiliationService)
    csv_repo (model_validate : W → result S) (update_source : S → result S)
    (model_dump : S → D) get_cursor (API_V1_STR : string)
    (params : AffiliationQueryParams) (resp : JsonProducts D Cur)
    (obj : loc) (h h' : gmap loc AffiliationSearch)
    (o o' : AffiliationSearch) (t0 : TypeEntry) (ts : list TypeEntry) :
  h !! obj = Some o →
  types o = t0 :: ts →
  update_affiliation_search self obj h = (Ok obj, h') →
  h' !! obj = Some o' →
  get_research_products_json csv_repo (work_repository self) model_validate
    update_source model_dump get_cursor API_V1_STR (id o) (type_ t0) params
  = Ok resp →
  js_total_products resp = products_count o'.
Proof.
  intros Ho Ht Hrun Ho' Hjson.
  rewrite (update_affiliation_search_run self obj h o Ho) in Hrun.
  assert (Hi : index0 (types o) = Ok t0) by (by rewrite Ht).
  unfold enrich in Hrun. rewrite Hi in Hrun.
  unfold get_research_products_json in Hjson.
  destruct (get_research_products_by_affiliation_csv _ _ _ _ _ _)
    as [works |]; [| discriminate]. simpl in Hjson.
  destruct (mapM _ works) as [data |]; [| discriminate]. simpl in Hjson.
  destruct (upside_relations _ _ _) as [[affs lg] |]; [| discriminate].
  destruct (count_papers _ _ _) as [n |]; [| discriminate].
  simpl in Hjson. injection Hjson as <-. simpl.
  destruct (get_by_id _ _) as [c |]; [| discriminate].
  simpl in Hrun. injection Hrun as <-.
  rewrite lookup_insert_eq in Ho'. by injection Ho' as <-.
Qed.

(** X21: the JSON export and the CSV export of one query list the same works:
    called with the skip, the limit and the sort of the parameters, the
    CSV export has as many rows as the JSON export has entries, and that
    number is the [count] of the JSON export. *)
Theorem get_research_products_json_csv_rows csv_repo work_repo
    (model_validate : W → result S) (update_source : S → result S)
    (model_dump : S → D) get_cursor (API_V1_STR : string)
    (validate_csv : W → result C) (update_source_csv : C → result C)
    (dump_csv : C → DC)
    (id typ : string) (params : AffiliationQueryParams)
    (resp : JsonProducts D Cur) (rows : list DC) :
  get_research_products_json csv_repo work_repo model_validate
    update_source model_dump get_cursor API_V1_STR id typ params
  = Ok resp →
  get_research_products_csv csv_repo validate_csv update_source_csv dump_csv
    id typ (Some (sort params)) (Some (skip params)) (Some (max params))
  = Ok rows →
  length rows = length (js_data resp)
  ∧ js_count resp = Z.of_nat (length rows).
Proof.
  unfold get_research_products_json, get_research_products_csv.
  destruct (get_research_products_by_affiliation_csv _ _ _ _ _ _)
    as [works |]; [| discriminate]. simpl.
  destruct (mapM (M := result) _ works) as [data |] eqn:Hdata;
    [| discriminate]. simpl.
  destruct (count_papers _ _ _) as [n |]; [| discriminate]. simpl.
  intros [= <-] Hrows. simpl.
  apply mapM_result_length in Hdata, Hrows.
  rewrite Hdata, Hrows. done.
Qed.

End ExportsProofs.

Lemma get_research_products_json_returns_witness :
  get_research_products_json (sample_csv_repository ["w1"; "w2"])
    sample_work_repository (λ w, Ok w) (λ s, Ok s) (λ s, s)
    sample_get_cursor "/app/api/v1" "B" "department" sample_params
  = Ok {| js_data := ["w1"; "w2"];
          js_total_products := 7;
          js_count := 2;
          js_cursor :=
            ("/app/api/v1/affiliation/department/B/research/products", 7) |}.
Proof.
  apply (get_research_products_json_returns
           (sample_csv_repository ["w1"; "w2"]) sample_work_repository
           (λ w, Ok w) (λ s, Ok s) (λ s, s) sample_get_cursor "/app/api/v1"
           "B" "department" sample_params ["w1"; "w2"] ["w1"; "w2"] 7).
  - reflexivity.
  - repeat constructor; by eexists _, _.
  - reflexivity.
Defined.

Lemma get_research_products_json_total_witness :
  ∃ resp : JsonProducts string (string * Z),
    get_research_products_json (sample_csv_repository ["w1"; "w2"])
      sample_work_repository (λ w, Ok w) (λ s, Ok s) (λ s, s)
      sample_get_cursor "/app/api/v1" "B" "department" sample_params
    = Ok resp
    ∧ js_total_products resp
      = products_count (enriched (sample_service []) department_B).
Proof.
  eexists. split; [reflexivity |].
  apply (get_research_products_json_total (sample_service [])
           (sample_csv_repository ["w1"; "w2"]) (λ w, Ok w) (λ s, Ok s)
           (λ s, s) sample_get_cursor "/app/api/v1" sample_params _
           1%positive (sample_heap department_B)
           (<[1%positive := enriched (sample_service []) department_B]>
              (sample_heap department_B))
           (model_validate_json department_B)
           (enriched (sample_service []) department_B)
           {| type_ := "department" |} []).
  - reflexivity.
  - reflexivity.
  - rewrite (update_affiliation_search_run (sample_service []) 1%positive
               (sample_heap department_B) (model_validate_json department_B)
               eq_refl).
    reflexivity.
  - apply lookup_insert_eq.
  - reflexivity.
Defined.

Lemma get_research_products_json_csv_rows_witness :
  ∃ rows : list string,
    get_research_products_csv (sample_csv_repository ["w1"; "w2"])
      (λ w, Ok w) (λ c, Ok c) (λ c, c) "B" "department"
      (Some "name") (Some 0) (Some 10) = Ok rows
    ∧ length rows = 2%nat.
Proof.
  eexists. split; [reflexivity |].
  destruct (get_research_products_json_csv_rows
              (sample_csv_repository ["w1"; "w2"]) sample_work_repository
              (λ w, Ok w) (λ s, Ok s) (λ s, s) sample_get_cursor
              "/app/api/v1" (λ w, Ok w) (λ c, Ok c) (λ c, c)
              "B" "department" sample_params _ ["w1"; "w2"]
              eq_refl eq_refl) as [Hlen _].
  exact Hlen.
Defined.

(** ** More on the enrichment, the search and the assembler *)

(** X22: the enrichment reads [types] through its first entry only: changing
    the entries after the first changes neither the outcome nor the
    affiliations, logo, products_count and citations_count that the
    enrichment leaves. *)
Theorem update_affiliation_search_first_type_only (self : AffiliationService)
    (obj : loc) (h : gmap loc AffiliationSearch) (o : AffiliationSearch)
    (ts : list TypeEntry) :
  let run := update_affiliation_search self obj (<[obj := o]> h) in
  let run' := update_affiliation_search self obj
                (<[obj := with_later_types ts o]> h) in
  run'.1 = run.1
  ∧ ∃ o1 o1', run.2 !! obj = Some o1
              ∧ run'.2 !! obj = Some o1'
              ∧ affiliations o1' = affiliations o1
              ∧ logo o1' = logo o1
              ∧ products_count o1' = products_count o1
              ∧ citations_count o1' = citations_count o1.
Proof.
  simpl.
  rewrite (update_affiliation_search_run self obj (<[obj := o]> h) o)
    by apply lookup_insert_eq.
  rewrite (update_affiliation_search_run self obj
             (<[obj := with_later_types ts o]> h) (with_later_types ts o))
    by apply lookup_insert_eq.
  simpl. rewrite !lookup_insert_eq.
  assert (Hi : index0 (types (with_later_types ts o)) = index0 (types o))
    by (unfold with_later_types; simpl; by destruct (types o)).
  unfold enrich. rewrite Hi.
  change (relations (with_later_types ts o)) with (relations o).
  change (id (with_later_types ts o)) with (id o).
  change (logo (with_later_types ts o)) with (logo o).
  destruct (index0 (types o)) as [t0 |]; simpl;
    [| split; [reflexivity | by eexists _, _]].
  destruct (upside_relations _ _ _) as [[affs lg] |]; simpl;
    [| split; [reflexivity | by eexists _, _]].
  destruct (count_papers _ _ _) as [n |]; simpl;
    [| split; [reflexivity | by eexists _, _]].
  destruct (get_by_id _ _) as [c |]; simpl;
    split; try reflexivity; by eexists _, _.
Qed.

Lemma enrich_page_heap (self : AffiliationService) (ds : list Affiliation) :
  ∀ h, h ⊆ (mapM (enrich_document self) ds h).2.
Proof.
  induction ds as [| d ds IH]; intros h; [done |].
  rewrite mapM_cons_run, enrich_document_run.
  assert (Hstep : h ⊆ <[fresh (dom h) := enriched self d]> h)
    by apply insert_subseteq, fresh_unallocated.
  destruct (enrich self (model_validate_json d)).1; [| exact Hstep].
  specialize (IH (<[fresh (dom h) := enriched self d]> h)).
  destruct (mapM (enrich_document self) ds _) as [[objs | e] h2];
    simpl in *; by etrans.
Qed.

Lemma dump_page_heap (objs : list loc) :
  ∀ h, (mapM (M := M) (λ o, getattr o (λ x, x)) objs h).2 = h.
Proof.
  induction objs as [| l objs IH]; intros h; [reflexivity |].
  rewrite mapM_cons_run. unfold getattr at 1.
  destruct (h !! l); [| reflexivity].
  specialize (IH h).
  destruct (mapM (M := M) (λ o, getattr o (λ x, x)) objs h)
    as [[vs | e] h2]; simpl in *; by subst.
Qed.

(** X23: a search changes no object that existed before it: whether it
    returns or raises, every object of the heap before the call is in the
    heap after it, unchanged. *)
Theorem search_keeps_heap (self : AffiliationService)
    (params : AffiliationQueryParams) (h : gmap loc AffiliationSearch) :
  h ⊆ (search self params h).2.
Proof.
  destruct (repo_search (repository self) (keywords params) (skip params)
              (max params) (sort params) (get_search params))
    as [[db_objs total] | e] eqn:Hs.
  - rewrite (search_run self params h db_objs total Hs).
    pose proof (enrich_page_heap self db_objs h) as Hpage.
    destruct (mapM (enrich_document self) db_objs h) as [[objs | e] h1];
      simpl in *; [| exact Hpage].
    pose proof (dump_page_heap objs h1) as Hdump.
    destruct (mapM (M := M) (λ o, getattr o (λ x, x)) objs h1)
      as [[vs | e] h2]; simpl in *; by subst.
  - unfold search. rewrite bind_run. unfold lift at 1. by rewrite Hs.
Qed.

Lemma enrich_page_first_failure (self : AffiliationService)
    (pre post : list Affiliation) (d : Affiliation) (e : error) :
  Forall (λ d, calls_succeed self (model_validate_json d) = true) pre →
  (enrich self (model_validate_json d)).1 = Err e →
  ∀ h, ∃ h', mapM (enrich_document self) (pre ++ d :: post) h = (Err e, h')
             ∧ size h' = (size h + length pre + 1)%nat.
Proof.
  intros Hpre Hd. induction Hpre as [| d0 pre Hd0 _ IH]; intros h; simpl app.
  - rewrite mapM_cons_run, enrich_document_run, Hd.
    eexists. split; [reflexivity |].
    rewrite map_size_insert_None by apply fresh_unallocated. simpl. lia.
  - rewrite mapM_cons_run, enrich_document_run.
    rewrite <- enrich_ok in Hd0.
    destruct (enrich self (model_validate_json d0)).1; [| discriminate].
    destruct (IH (<[fresh (dom h) := enriched self d0]> h)) as (h' & Hrun & Hsz).
    rewrite Hrun. exists h'. split; [reflexivity |].
    rewrite Hsz, map_size_insert_None by apply fresh_unallocated.
    simpl. lia.
Qed.

(** X24: a search raises the exception of the first record of the page, in
    page order, whose enrichment raises, and stops there: the records
    after it are not enriched, no object is created for them. *)
Theorem search_first_failure (self : AffiliationService)
    (params : AffiliationQueryParams) (h : gmap loc AffiliationSearch)
    (pre post : list Affiliation) (d : Affiliation) (total : Z) (e : error) :
  repo_search (repository self) (keywords params) (skip params) (max params)
    (sort params) (get_search params) = Ok ((pre ++ d :: post)%list, total) →
  Forall (λ d, calls_succeed self (model_validate_json d) = true) pre →
  (update_affiliation_search self 1%positive
     {[ 1%positive := model_validate_json d ]}).1 = Err e →
  ∃ h', search self params h = (Err e, h')
        ∧ size h' = (size h + length pre + 1)%nat.
Proof.
  intros Hs Hpre Hd.
  rewrite (update_affiliation_search_run self 1%positive _
             (model_validate_json d)) in Hd by apply lookup_singleton_eq.
  simpl in Hd.
  assert (Hd' : (enrich self (model_validate_json d)).1 = Err e).
  { destruct (enrich self (model_validate_json d)).1; congruence. }
  rewrite (search_run self params h _ total Hs).
  destruct (enrich_page_first_failure self pre post d e Hpre Hd' h)
    as (h' & Hrun & Hsz).
  rewrite Hrun. by exists h'.
Qed.

Lemma search_first_failure_witness :
  ∃ h', search (sample_service [department_B; group_G; untyped_U])
          sample_params ∅ = (Err NotFound, h')
        ∧ size h' = 2%nat.
Proof.
  destruct (search_first_failure
              (sample_service [department_B; group_G; untyped_U])
              sample_params ∅ [department_B] [untyped_U] group_G 3 NotFound)
    as (h' & Hrun & Hsz).
  - reflexivity.
  - repeat constructor.
  - vm_compute. reflexivity.
  - exists h'. split; [exact Hrun |]. rewrite Hsz. reflexivity.
Defined.

(** X25: the tiers of the assembler nest: a result with faculties has
    departments, a result with departments has groups, and no result has
    both faculties and authors. *)
Theorem get_affiliations_tiers_nest (self : AffiliationService)
    (id : string) (typ : option string)
    (d : gmap string (list EntityRef)) :
  get_affiliations self id typ = Ok d →
  (is_Some (d !! "faculties") → is_Some (d !! "departments"))
  ∧ (is_Some (d !! "departments") → is_Some (d !! "groups"))
  ∧ ¬ (is_Some (d !! "faculties") ∧ is_Some (d !! "authors")).
Proof.
  destruct tag_conditions as ((I1 & I2 & I3 & I4) & (F1 & F2 & F3 & F4)
                              & (D1 & D2 & D3 & D4) & (G1 & G2 & G3 & G4)).
  destruct (typ_cases typ) as [-> | [-> | [-> | [-> | Hun]]]].
  - rewrite get_affiliations_unfold, I1, I2, I3, I4. unfold tier.
    destruct (get_affiliations_related_type _ id "faculty" _); [| discriminate].
    destruct (get_affiliations_related_type _ id "department" _); [| discriminate].
    destruct (get_affiliations_related_type _ id "group" _); [| discriminate].
    simpl. unfold model_validate. simpl.
    rewrite dump_validate_id by tier_keys_tac. intros [= <-].
    split; [| split]; intros H; is_some_tac.
  - rewrite get_affiliations_unfold, F1, F2, F3, F4. unfold tier.
    destruct (get_affiliations_related_type _ id "department" _); [| discriminate].
    destruct (get_affiliations_related_type _ id "group" _); [| discriminate].
    destruct (get_authors_by_affiliation _ id _); [| discriminate].
    simpl. unfold model_validate. simpl.
    rewrite dump_validate_id by tier_keys_tac. intros [= <-].
    split; [| split]; intros H; is_some_tac.
  - rewrite get_affiliations_unfold, D1, D2, D3, D4. unfold tier.
    destruct (get_affiliations_related_type _ id "group" _); [| discriminate].
    destruct (get_authors_by_affiliation _ id _); [| discriminate].
    simpl. unfold model_validate. simpl.
    rewrite dump_validate_id by tier_keys_tac. intros [= <-].
    split; [| split]; intros H; is_some_tac.
  - rewrite get_affiliations_unfold, G1, G2, G3, G4. unfold tier.
    destruct (get_authors_by_affiliation _ id _); [| discriminate].
    simpl. unfold model_validate. simpl.
    rewrite dump_validate_id by tier_keys_tac. intros [= <-].
    split; [| split]; intros H; is_some_tac.
  - rewrite (get_affiliations_no_tier self id typ Hun). intros [= <-].
    split; [| split]; intros H; is_some_tac.
Qed.

Lemma get_affiliations_tiers_nest_witness :
  ∃ d, get_affiliations (sample_service []) "F" (Some "faculty") = Ok d
       ∧ is_Some (d !! "groups")
       ∧ d !! "faculties" = None.
Proof.
  eexists. split; [reflexivity |].
  destruct (get_affiliations_tiers_nest (sample_service []) "F"
              (Some "faculty") _ eq_refl) as (_ & Hdg & _).
  split.
  - apply Hdg. vm_compute. eauto.
  - vm_compute. reflexivity.
Defined.
